(** * MDBenchmark: the plotting core of [mdbenchmark/plot.py]

    A shallow embedding of the data selection
    ([filter_dataframe_for_plotting]), the grouping into lines
    ([plot_over_group], [plot_line], [plot_projection]) and the tick
    planning ([get_xsteps] and the tick arithmetic inside [plot]).

    Conventions.
    - A data frame is the list of its rows, in row order; the index column is
      not used by the code and is left out.
    - Python integers are [Z].  The values of the columns [nodes] and
      [ncores] are [Z] as well; numpy holds them as int64, and the grid of
      the x ticks is computed in that arithmetic, modulo 2^64 ([fit]).  In
      [plot_projection] the step between the first two x and the sum one
      step past the last x are exact: they are those of the code as long as
      they fit in 64 bits.
    - The column [ns/day] and every other float is an exact rational [Q];
      rounding of IEEE doubles is not modelled.
    - [console.info] appends to a log, [console.error] ends the run. *)

From Stdlib Require Import ZArith QArith Qround Bool List String Ascii Lia.
From Stdlib Require Import Sorted Permutation OrderedTypeEx Lqa.
Import ListNotations.

Local Open Scope Z_scope.

(** ** Data model *)

(** One row of the CSV written by [mdbenchmark analyze]. *)
Record row := mkRow {
  host : string;
  module : string;
  gpu : bool;
  nodes : Z;
  ncores : Z;
  ns_day : Q
}.

Definition dataframe := list row.

(** The column chosen for the x axis: ["ncores" if plot_cores else "nodes"]. *)
Definition selection (plot_cores : bool) : row -> Z :=
  if plot_cores then ncores else nodes.

(** ** Console: a log of notes and a terminal error *)

(** The calls of [console.info] in [plot.py], with their arguments. *)
Inductive note :=
| PlottingGpuAndCpu
| PlottingGpuOnly
| PlottingCpuOnly
| PlottingAllHosts
| PlottingHosts (found : list string)
| PlottingAllModulesOfEngine (engine : string)
| PlottingModule (m : string)
| PlottingAllModules.

(** The calls of [console.error] in [filter_dataframe_for_plotting] (the
    selection errors), and the Python exceptions the tick arithmetic of
    [plot] can raise. *)
Inductive error :=
| NothingToPlot
| EmptyDataset
| HostsNotFound (available : list string)
| ModuleMissing (m : string)
| NoBenchmarkInformation
| ZeroStep
| NoAstype
| NotANumber.

(** A run: the notes written so far and either the error that ended the run
    or its value. *)
Definition run (A : Type) : Type := (list note * (error + A))%type.

Definition ret {A} (a : A) : run A := ([], inr a).

Definition bind {A B} (c : run A) (k : A -> run B) : run B :=
  match c with
  | (l, inl e) => (l, inl e)
  | (l, inr a) => let (l', r) := k a in (l ++ l', r)
  end.

Definition console_info (n : note) : run unit := ([n], inr tt).

(** Modelled from the spec: [console.error] of [mdbenchmark/console.py] is
    not in the sources at hand.  The spec has every selection error terminal
    ("a terminal error message plus non-zero exit for each SelectionError";
    "the whole pipeline runs to completion or fails fast with a terminal
    error"): the call writes its message and the run ends there. *)
Definition console_error {A} (e : error) : run A := ([], inl e).

(** A Python exception that nothing catches. *)
Definition raise {A} (e : error) : run A := ([], inl e).

Declare Scope run_scope.
Delimit Scope run_scope with run.
Notation "x <- c ;; k" := (bind c (fun x => k))
  (at level 61, c at next level, right associativity) : run_scope.
Notation "' pat <- c ;; k" := (bind c (fun x => match x with pat => k end))
  (at level 61, pat pattern, c at next level, right associativity) : run_scope.
Notation "c ;; k" := (bind c (fun _ => k))
  (at level 61, right associativity) : run_scope.

Definition notes {A} (c : run A) : list note := fst c.
Definition outcome {A} (c : run A) : error + A := snd c.

(** ** [get_xsteps] *)

(** Truth value of [xtick_step], an [int] or [None] (click's [type=int]
    option without default): [None] and [0] are false. *)
Definition truthy (xtick_step : option Z) : bool :=
  match xtick_step with
  | None => false
  | Some s => negb (s =? 0)
  end.

Definition get_xsteps (size min_x : Z) (plot_cores : bool)
  (xtick_step : option Z) : Z :=
  let step := 1 in
  let step := if size >=? 18 then 2 else step in
  let step :=
    if plot_cores && ((size >? 10) || (min_x >=? 100)) then 3 else step in
  let step :=
    match xtick_step with
    | Some s => if truthy xtick_step then s else step
    | None => step
    end in
  step.

(** ** Columns of strings *)

(** [np.unique] on a column of strings: the distinct values, sorted.  Python
    compares [str] by code point, [String.compare] by byte; on UTF-8 text the
    two orders agree. *)
Fixpoint insert_unique {A} (cmp : A -> A -> comparison) (a : A) (l : list A)
  : list A :=
  match l with
  | [] => [a]
  | x :: l' =>
      match cmp a x with
      | Lt => a :: l
      | Eq => l
      | Gt => x :: insert_unique cmp a l'
      end
  end.

Definition sort_unique {A} (cmp : A -> A -> comparison) (l : list A) : list A :=
  fold_right (insert_unique cmp) [] l.

Definition np_unique (col : list string) : list string :=
  sort_unique String.compare col.

(** [value in values], on strings. *)
Definition isin (values : list string) (value : string) : bool :=
  existsb (String.eqb value) values.

(** [["gromacs", "namd"]], the engine names the module loop lets through. *)
Definition engines : list string := ["gromacs"; "namd"]%string.

(** [df[df.gpu]] and [df[~df.gpu]]. *)
Definition rows_on_gpu (df : dataframe) : dataframe := filter gpu df.
Definition rows_on_cpu (df : dataframe) : dataframe :=
  filter (fun r => negb (gpu r)) df.

(** [df.empty] *)
Definition empty (df : dataframe) : bool :=
  match df with [] => true | _ :: _ => false end.

(** A regular-expression search for the patterns the module option is used
    with: alternatives separated by [|], each a sequence of literal
    characters and [.] (any character but a newline).  On such patterns it is
    Python's [re.search(pat, s) is not None]; the other metacharacters of
    [re] are read here as literals. *)
Fixpoint matches_here (pat s : string) : bool :=
  match pat, s with
  | EmptyString, _ => true
  | String p pat', String c s' =>
      ((Ascii.eqb p "." && negb (Ascii.eqb c "010")) || Ascii.eqb p c)
      && matches_here pat' s'
  | String _ _, EmptyString => false
  end.

Fixpoint occurs (pat s : string) : bool :=
  matches_here pat s
  || match s with
     | EmptyString => false
     | String _ s' => occurs pat s'
     end.

Fixpoint alternatives (acc pat : string) : list string :=
  match pat with
  | EmptyString => [acc]
  | String c pat' =>
      if Ascii.eqb c "|" then acc :: alternatives EmptyString pat'
      else alternatives (acc ++ String c EmptyString) pat'
  end.

Definition re_search (pat s : string) : bool :=
  existsb (fun alt => occurs alt s) (alternatives EmptyString pat).

Local Open Scope run_scope.

Section Filter.

(** [Series.str.contains(pat)] of pandas on one value, a regular-expression
    search of the [re] module.  The selection is stated for any such
    function; [re_search] above is used to run it. *)
Variable str_contains : string -> string -> bool.

(** Lines 117-130: the processing units. *)
Definition select_processing_units (df : dataframe) (gpu cpu : bool)
  : run dataframe :=
  df <- (if gpu && cpu then
           console_info PlottingGpuAndCpu ;; ret df
         else if gpu && negb cpu then
           let df := rows_on_gpu df in
           console_info PlottingGpuOnly ;; ret df
         else if cpu && negb gpu then
           let df := rows_on_cpu df in
           console_info PlottingCpuOnly ;; ret df
         else if negb cpu && negb gpu then
           console_error NothingToPlot
         else ret df) ;;
  (if empty df then console_error EmptyDataset else ret tt) ;;
  ret df.

(** Lines 132-150: the hosts. *)
Definition select_hosts (df : dataframe) (host_name : list string)
  : run dataframe :=
  let df_filtered_hosts := filter (fun r => isin host_name (host r)) df in
  let df_unique_hosts := np_unique (map host df_filtered_hosts) in
  (if negb (List.length df_unique_hosts =? List.length host_name)%nat then
     console_error (HostsNotFound (np_unique (map host df)))
   else ret tt) ;;
  (if (List.length host_name =? 0)%nat then
     console_info PlottingAllHosts ;; ret df
   else
     let df := df_filtered_hosts in
     console_info (PlottingHosts df_unique_hosts) ;; ret df).

(** Lines 152-160: the loop over the requested modules. *)
Fixpoint check_modules (df : dataframe) (module_name : list string)
  : run unit :=
  match module_name with
  | [] => ret tt
  | m :: rest =>
      (if isin engines m then
         console_info (PlottingAllModulesOfEngine m)
       else if isin (map module df) m then
         console_info (PlottingModule m)
       else if negb (isin (map module df) m) then
         console_error (ModuleMissing m)
       else ret tt) ;;
      check_modules df rest
  end.

(** Lines 152-175: the modules. *)
Definition select_modules (df : dataframe) (module_name : list string)
  : run dataframe :=
  check_modules df module_name ;;
  (if (List.length module_name =? 0)%nat then console_info PlottingAllModules
   else ret tt) ;;
  df <- (if negb (List.length module_name =? 0)%nat then
           ret (filter
                  (fun r => str_contains (String.concat "|" module_name)
                                         (module r)) df)
         else ret df) ;;
  (if empty df then console_error NoBenchmarkInformation else ret tt) ;;
  ret df.

Definition filter_dataframe_for_plotting (df : dataframe)
  (host_name module_name : list string) (gpu cpu : bool) : run dataframe :=
  df <- select_processing_units df gpu cpu ;;
  df <- select_hosts df host_name ;;
  select_modules df module_name.

End Filter.

(** ** Lines of the chart *)

(** Modelled from the spec: [calc_slope_intercept] and [lin_func] of
    [mdbenchmark/utils.py] are not in the sources at hand.  The spec gives
    the line through two points, [slope = (y2-y1)/(x2-x1)] and
    [intercept = y1 - slope*x1], valid when the two x values differ; where
    they are equal the float division is by zero and there is no line
    ([None]). *)
Definition calc_slope_intercept (p1 p2 : Q * Q) : option (Q * Q) :=
  let '(x1, y1) := p1 in
  let '(x2, y2) := p2 in
  if Qeq_bool x1 x2 then None
  else
    let slope := ((y2 - y1) / (x2 - x1))%Q in
    let intercept := (y1 - slope * x1)%Q in
    Some (slope, intercept).

(** Modelled from the spec: the line the fit is evaluated with,
    [slope * x + intercept]. *)
Definition lin_func (x slope intercept : Q) : Q :=
  (slope * x + intercept)%Q.

(** What [ax.plot] has drawn: a labelled line of measurements, or the dashed
    line of a projection ([None] when the fit has no line). *)
Inductive artist :=
| Line (label : string) (points : list (Z * Q))
| Projection (points : option (list (Q * Q))).

(** The state of the [Axes] object that [plot] fills. *)
Record axes := mkAxes {
  artists : list artist;
  xlabel : string;
  ylabel : string;
  xticks : option (list Z);
  xlim : option (Q * Q);
  yticks : option (list Q);
  ylim : option (Q * Q);
  texts : list string
}.

Definition new_axes : axes :=
  mkAxes [] EmptyString EmptyString None None None None [].

Definition ax_plot (ax : axes) (a : artist) : axes :=
  mkAxes (artists ax ++ [a]) (xlabel ax) (ylabel ax) (xticks ax) (xlim ax)
         (yticks ax) (ylim ax) (texts ax).

Definition set_labels (ax : axes) (x y : string) : axes :=
  mkAxes (artists ax) x y (xticks ax) (xlim ax) (yticks ax) (ylim ax)
         (texts ax).

Definition set_xaxis (ax : axes) (ticks : list Z) (lim : Q * Q) : axes :=
  mkAxes (artists ax) (xlabel ax) (ylabel ax) (Some ticks) (Some lim)
         (yticks ax) (ylim ax) (texts ax).

Definition set_yaxis (ax : axes) (ticks : list Q) (lim : Q * Q) : axes :=
  mkAxes (artists ax) (xlabel ax) (ylabel ax) (xticks ax) (xlim ax)
         (Some ticks) (Some lim) (texts ax).

Definition ax_text (ax : axes) (t : string) : axes :=
  mkAxes (artists ax) (xlabel ax) (ylabel ax) (xticks ax) (xlim ax)
         (yticks ax) (ylim ax) (texts ax ++ [t]).

(** [plot_projection]: the fit through the first two rows of [df], drawn
    over [0], the x values of [df] and one step past the last of them.
    It is called on frames of two rows or more; on a shorter one [iloc[1]]
    raises, and nothing is drawn. *)
Definition plot_projection (df : dataframe) (selection : row -> Z)
  : option (list (Q * Q)) :=
  match df with
  | r0 :: r1 :: _ =>
      match calc_slope_intercept (inject_Z (selection r0), ns_day r0)
                                 (inject_Z (selection r1), ns_day r1) with
      | Some (slope, intercept) =>
          let xstep := selection r1 - selection r0 in
          let xmax := selection (last df r0) + xstep in
          let x := [0] ++ map selection df ++ [xmax] in
          Some (map (fun x => (inject_Z x, lin_func (inject_Z x) slope intercept)) x)
      | None => None
      end
  | _ => None
  end.

Definition plot_line (df : dataframe) (selection : row -> Z) (label : string)
  (fit : bool) (ax : axes) : axes :=
  let ax := ax_plot ax (Line label (map (fun r => (selection r, ns_day r)) df)) in
  if fit && (1 <? List.length df)%nat then
    ax_plot ax (Projection (plot_projection df selection))
  else ax.

(** The key of [df.groupby(["gpu", "module", "host"])]. *)
Definition key : Type := bool * string * string.

Definition row_key (r : row) : key := (gpu r, module r, host r).

Definition key_compare (a b : key) : comparison :=
  let '(g1, m1, h1) := a in
  let '(g2, m2, h2) := b in
  match Bool.compare g1 g2 with
  | Eq => match String.compare m1 m2 with
          | Eq => String.compare h1 h2
          | c => c
          end
  | c => c
  end.

Definition key_eqb (a b : key) : bool :=
  match key_compare a b with Eq => true | _ => false end.

(** Iterating over a pandas [groupby]: one frame per distinct key, the keys
    in sorted order ([sort=True] is the default), the rows of each frame in
    the order they have in [df]. *)
Definition groupby (df : dataframe) : list (key * dataframe) :=
  map (fun k => (k, filter (fun r => key_eqb k (row_key r)) df))
      (sort_unique key_compare (map row_key df)).

Definition group_label (k : key) : string :=
  let '(g, m, template) := k in
  let pu := (if g then "GPU" else "CPU")%string in
  (template ++ " - " ++ m ++ " on " ++ pu ++ "s")%string.

Definition plot_over_group (df : dataframe) (plot_cores fit : bool)
  (ax : axes) : axes :=
  let selection := selection plot_cores in
  let gb := groupby df in
  let ax :=
    fold_left (fun ax '(k, df) => plot_line df selection (group_label k) fit ax)
              gb ax in
  let xlabel := (if plot_cores then "cores" else "nodes")%string in
  set_labels ax ("Number of " ++ xlabel)%string "Performance [ns/day]"%string.

(** The frames the lines are drawn from, one per group. *)
Definition series (df : dataframe) : list dataframe := map snd (groupby df).

(** ** Ticks *)

(** [ceil(a / b)] on integers ([Z.div] rounds down, as Python's [//]). *)
Definition ceil_div (a b : Z) : Z := - ((- a) / b).

(** The values of numpy's int64, and the result of its arithmetic: the
    exact result modulo 2^64, back in that range. *)
Definition int64 (z : Z) : bool :=
  (- 9223372036854775808 <=? z) && (z <? 9223372036854775808).

Definition wrap64 (z : Z) : Z :=
  (z + 9223372036854775808) mod 18446744073709551616 - 9223372036854775808.

(** The result of an operation on the values of a column of counts.  A
    column whose values are all int64 is of that dtype and its arithmetic
    wraps.  A count outside that range is in no such column; a frame that
    has one is computed with exactly. *)
Definition fit (int64_dtype : bool) (z : Z) : Z :=
  if int64_dtype then wrap64 z else z.

(** [np.arange(start, stop, step)] on integers: [ceil((stop-start)/step)]
    values from [start] on, [start + i*step] in the arithmetic of the
    column, as is the difference [stop - start]; a zero step raises. *)
Definition np_arange (int64_dtype : bool) (start stop step : Z)
  : run (list Z) :=
  if step =? 0 then raise ZeroStep
  else
    let n := ceil_div (fit int64_dtype (stop - start)) step in
    ret (map (fun i => fit int64_dtype (start + Z.of_nat i * step))
             (seq 0 (Z.to_nat n))).

(** [np.arange(start, stop, step)] on floats. *)
Definition np_arange_float (start stop step : Q) : run (list Q) :=
  if Qeq_bool step 0 then raise ZeroStep
  else
    let n := Qceiling ((stop - start) / step) in
    ret (map (fun i => (start + inject_Z (Z.of_nat i) * step)%Q)
             (seq 0 (Z.to_nat n))).

(** Every [k]-th element of a list, the first after [skip] elements. *)
Fixpoint every {A} (k skip : nat) (l : list A) : list A :=
  match l with
  | [] => []
  | x :: l' =>
      match skip with
      | O => x :: every k (k - 1) l'
      | S skip' => every k skip' l'
      end
  end.

(** [xs[::step]]: a negative step walks from the last element down, a zero
    step raises. *)
Definition slice_step {A} (xs : list A) (step : Z) : run (list A) :=
  if step =? 0 then raise ZeroStep
  else if step >? 0 then ret (every (Z.to_nat step) 0 xs)
  else ret (every (Z.to_nat (- step)) 0 (rev xs)).

(** [Series.min()] and [Series.max()]; over no row at all they are [nan]. *)
Definition column_min (col : list Z) : run Z :=
  match col with
  | [] => raise NotANumber
  | x :: l => ret (fold_left Z.min l x)
  end.

Definition column_max (col : list Z) : run Z :=
  match col with
  | [] => raise NotANumber
  | x :: l => ret (fold_left Z.max l x)
  end.

Definition Qmax (a b : Q) : Q := if Qle_bool a b then b else a.

Definition column_max_float (col : list Q) : run Q :=
  match col with
  | [] => raise NotANumber
  | x :: l => ret (fold_left Qmax l x)
  end.

(** [.astype(int)] on a float: the fraction is cut off. *)
Definition astype_int (q : Q) : Z :=
  if Qle_bool 0 q then Qfloor q else Qceiling q.

(** Lines 299-308 of [plot], "Update xticks": the candidate ticks, the step
    of [get_xsteps], the ticks set and the limits set.  [max_x + min_x] is a
    sum of the column's arithmetic (int64 when its values are), the limits
    are floats. *)
Definition update_xticks (df : dataframe) (plot_cores : bool)
  (xtick_step : option Z) : run (list Z * Z * list Z * (Q * Q)) :=
  let selection := selection plot_cores in
  let int64_dtype := forallb int64 (map selection df) in
  min_x <- (if plot_cores then column_min (map selection df) else ret 1) ;;
  max_x <- column_max (map selection df) ;;
  let xticks_steps := min_x in
  xticks <- np_arange int64_dtype min_x (fit int64_dtype (max_x + min_x))
                      xticks_steps ;;
  let step :=
    get_xsteps (Z.of_nat (List.length xticks)) min_x plot_cores xtick_step in
  ticks <- slice_step xticks step ;;
  let xdiff := (inject_Z min_x * (1 # 2) * inject_Z step)%Q in
  ret (xticks, step, ticks,
       ((inject_Z min_x - xdiff)%Q, (inject_Z max_x + xdiff)%Q)).

(** Line 312, [((max_y + 1) / 10).astype(int)]. *)
Definition yticks_steps (max_y : Q) : Z :=
  astype_int ((max_y + 1) / 10)%Q.

(** Lines 311-315 of [plot], "Update yticks": the interval, the ticks and
    the upper limit.  When the largest performance is [0.0], [max_y or 50] is
    the Python [int] 50, [(max_y + 1) / 10] a Python [float], and [.astype]
    raises [AttributeError]. *)
Definition update_yticks (df : dataframe) : run (Z * list Q * Q) :=
  m <- column_max_float (map ns_day df) ;;
  if Qeq_bool m 0 then raise NoAstype
  else
    let max_y := m in
    let yticks_steps := yticks_steps max_y in
    let top := (max_y + max_y * (25 # 100))%Q in
    yticks <- np_arange_float 0 top (inject_Z yticks_steps) ;;
    ret (yticks_steps, yticks, top).

Section Plot.

Variable str_contains : string -> string -> bool.

(** [plot], from the frame read from the CSV files (concatenated, rows
    with a missing value dropped) to the axes handed to [savefig].  Reading
    the files, the legend and the output name are left to their libraries. *)
Definition plot (df : dataframe) (template module_name : list string)
  (gpu cpu plot_cores fit : bool) (xtick_step : option Z) (watermark : bool)
  : run axes :=
  df <- filter_dataframe_for_plotting str_contains df template module_name
                                      gpu cpu ;;
  let ax := new_axes in
  let ax := plot_over_group df plot_cores fit ax in
  '(_, _, ticks, lim) <- update_xticks df plot_cores xtick_step ;;
  let ax := set_xaxis ax ticks lim in
  '(_, yticks, top) <- update_yticks df ;;
  let ax := set_yaxis ax yticks (0%Q, top) in
  let ax := if watermark then ax_text ax "MDBenchmark" else ax in
  ret ax.

End Plot.

(** ** Sample rows *)

Definition gromacs_row : row :=
  mkRow "draco" "gromacs/2018.3" false 1 32 (98 # 1).
Definition namd_row : row :=
  mkRow "draco" "namd/2.12" false 2 64 (12 # 1).
Definition gpu_row : row :=
  mkRow "hydra" "gromacs/2018.3" true 1 40 (150 # 1).

(** A second run of the NAMD benchmark, on one node. *)
Definition namd_row_1 : row :=
  mkRow "draco" "namd/2.12" false 1 32 (7 # 1).

(** One benchmark of a slow system. *)
Definition slow_row : row :=
  mkRow "draco" "namd/2.12" false 1 32 (5 # 1).

(** ** Orders *)

(** Rows in ascending order of the x column. *)
Definition ascending (selection : row -> Z) (df : dataframe) : Prop :=
  Sorted (fun a b => selection a <= selection b) df.

(** Strictly below, for a three-way comparison. *)
Definition below {A} (cmp : A -> A -> comparison) (a b : A) : Prop :=
  cmp a b = Lt.

(** ** The name of the image *)

(** [s.split(".")[0]]: what comes before the first dot of [s], all of [s]
    when it has none. *)
Fixpoint before_first_dot (s : string) : string :=
  match s with
  | EmptyString => EmptyString
  | String c s' =>
      if Ascii.eqb c "." then EmptyString
      else String c (before_first_dot s')
  end.

(** [s.endswith(suffix)] *)
Fixpoint endswith (s suffix : string) : bool :=
  String.eqb s suffix
  || match s with
     | EmptyString => false
     | String _ s' => endswith s' suffix
     end.

(** ["{}.{}".format(name, output_format)] *)
Definition with_extension (name output_format : string) : string :=
  (name ++ "." ++ output_format)%string.

Section OutputName.

(** [generate_output_name] of [mdbenchmark/utils.py] names the image after
    the time of the call; it is taken as given. *)
Variable generate_output_name : string -> string.

(** Lines 324-330 of [plot]: the name the image is saved under, from the
    names of the CSV files, the option [--output-name] ([None] when it is
    not given) and the format. *)
Definition saved_name (csv : list string) (output_name : option string)
  (output_format : string) : string :=
  match output_name with
  | None =>
      match csv with
      | [c] =>
          let csv_string := before_first_dot c in
          with_extension csv_string output_format
      | _ => generate_output_name output_format
      end
  | Some output_name =>
      if negb (endswith output_name ("." ++ output_format)) then
        with_extension output_name output_format
      else output_name
  end.

End OutputName.

(** The rows a selection asks for, one condition per option: the processing
    units, the hosts and the modules. *)
Definition unit_wanted (want_gpu want_cpu : bool) (r : row) : bool :=
  if want_gpu && want_cpu then true
  else if want_gpu then gpu r else negb (gpu r).

Definition host_wanted (host_name : list string) (r : row) : bool :=
  match host_name with
  | [] => true
  | _ :: _ => isin host_name (host r)
  end.

Definition module_wanted (str_contains : string -> string -> bool)
  (module_name : list string) (r : row) : bool :=
  match module_name with
  | [] => true
  | _ :: _ => str_contains (String.concat "|" module_name) (module r)
  end.

(** A requested module that is neither an engine name nor the module of a
    row of [df]. *)
Definition unknown_module (df : dataframe) (m : string) : bool :=
  negb (isin engines m) && negb (isin (map module df) m).

(** What a labelled line shows, and which artists are projections. *)
Definition measurements (a : artist) : list (Z * Q) :=
  match a with
  | Line _ points => points
  | Projection _ => []
  end.

Definition line_label (a : artist) : list string :=
  match a with
  | Line label _ => [label]
  | Projection _ => []
  end.

Definition is_projection (a : artist) : bool :=
  match a with
  | Line _ _ => false
  | Projection _ => true
  end.

(** The notes a selection that succeeds writes, one per decision. *)
Definition unit_note (want_gpu want_cpu : bool) : note :=
  if want_gpu && want_cpu then PlottingGpuAndCpu
  else if want_gpu then PlottingGpuOnly else PlottingCpuOnly.

Definition host_note (host_name : list string) (df : dataframe) : note :=
  match host_name with
  | [] => PlottingAllHosts
  | _ :: _ =>
      PlottingHosts
        (np_unique (map host (filter (fun r => isin host_name (host r)) df)))
  end.

Definition module_note (m : string) : note :=
  if isin engines m then PlottingAllModulesOfEngine m else PlottingModule m.

Definition module_notes (module_name : list string) : list note :=
  match module_name with
  | [] => [PlottingAllModules]
  | _ :: _ => map module_note module_name
  end.



(** * Properties *)

(** ** The run monad *)

Lemma bind_ret {A B} (a : A) (k : A -> run B) : bind (ret a) k = k a.
Proof. unfold bind, ret. destruct (k a). reflexivity. Qed.

Lemma bind_error {A B} (l : list note) (e : error) (k : A -> run B) :
  bind (l, inl e) k = (l, inl e).
Proof. reflexivity. Qed.

Lemma outcome_bind_value {A B} (c : run A) (k : A -> run B) l a :
  c = (l, inr a) -> outcome (bind c k) = outcome (k a).
Proof. intros ->. unfold bind, outcome. destruct (k a). reflexivity. Qed.

Lemma outcome_bind_error {A B} (c : run A) (k : A -> run B) e :
  outcome c = inl e -> outcome (bind c k) = inl e.
Proof. destruct c as [l [e'|a]]; simpl; intros H; congruence. Qed.

(** ** [get_xsteps] *)

Lemma get_xsteps_user size min_x plot_cores s :
  s <> 0 -> get_xsteps size min_x plot_cores (Some s) = s.
Proof.
  intros Hs. unfold get_xsteps, truthy.
  destruct (Z.eqb_spec s 0); [contradiction | reflexivity].
Qed.

Lemma get_xsteps_none size min_x plot_cores :
  get_xsteps size min_x plot_cores None =
  if plot_cores && ((size >? 10) || (min_x >=? 100)) then 3
  else if size >=? 18 then 2 else 1.
Proof. unfold get_xsteps. reflexivity. Qed.

Lemma get_xsteps_nonzero size min_x plot_cores xtick_step :
  get_xsteps size min_x plot_cores xtick_step <> 0.
Proof.
  destruct xtick_step as [s|].
  - destruct (Z.eq_dec s 0) as [-> | Hs].
    + unfold get_xsteps, truthy. simpl.
      destruct (plot_cores && _); [lia|]. destruct (size >=? 18); lia.
    + rewrite get_xsteps_user; assumption.
  - rewrite get_xsteps_none.
    destruct (plot_cores && _); [lia|]. destruct (size >=? 18); lia.
Qed.

(** C6: without a user step, [get_xsteps] gives 3 when cores are plotted and
    there are more than 10 ticks or the smallest x is at least 100, otherwise
    2 when there are at least 18 ticks, otherwise 1; the rule for 3 replaces
    the result of the rule for 2.  The three sample calls of the spec give
    1, 2 and 3. *)
Theorem get_xsteps_heuristics :
  (forall size min_x plot_cores,
      get_xsteps size min_x plot_cores None =
      if plot_cores && ((size >? 10) || (min_x >=? 100)) then 3
      else if size >=? 18 then 2 else 1)
  /\ get_xsteps 5 4 false None = 1
  /\ (forall min_x, get_xsteps 20 min_x false None = 2)
  /\ get_xsteps 15 128 true None = 3
  /\ (forall min_x, get_xsteps 20 min_x true None = 3).
Proof.
  split; [exact get_xsteps_none|].
  repeat split; intros; reflexivity.
Qed.

(** C4, at the input where the code leaves the claim: a user step of 0 is
    provided, and [get_xsteps] returns the step of the heuristics, here 1 and
    2 and 3, not the 0 asked for. *)
Theorem get_xsteps_user_zero :
  get_xsteps 5 4 false (Some 0) = 1
  /\ get_xsteps 20 1 false (Some 0) = 2
  /\ get_xsteps 15 128 true (Some 0) = 3.
Proof. repeat split; reflexivity. Qed.

(** ** Sorted columns of distinct values *)

Section SortUnique.

Context {A : Type} (cmp : A -> A -> comparison).
Hypothesis cmp_eq : forall a b, cmp a b = Eq -> a = b.

Lemma In_insert_unique a x l :
  In x (insert_unique cmp a l) <-> x = a \/ In x l.
Proof.
  induction l as [|y l IH]; simpl.
  - intuition.
  - destruct (cmp a y) eqn:E; simpl.
    + apply cmp_eq in E. subst. intuition.
    + intuition.
    + rewrite IH. intuition.
Qed.

Lemma In_sort_unique x l : In x (sort_unique cmp l) <-> In x l.
Proof.
  induction l as [|y l IH]; simpl.
  - reflexivity.
  - rewrite In_insert_unique, IH. intuition.
Qed.

Hypothesis cmp_antisym : forall a b, cmp a b = CompOpp (cmp b a).
Hypothesis cmp_trans :
  forall a b c, cmp a b = Lt -> cmp b c = Lt -> cmp a c = Lt.

Lemma cmp_refl a : cmp a a = Eq.
Proof.
  pose proof (cmp_antisym a a) as H.
  destruct (cmp a a); simpl in H; congruence.
Qed.

Lemma insert_unique_sorted a l :
  StronglySorted (below cmp) l -> StronglySorted (below cmp) (insert_unique cmp a l).
Proof.
  induction 1 as [|y l Hl IH Hy]; simpl.
  - repeat constructor.
  - destruct (cmp a y) eqn:E.
    + constructor; assumption.
    + constructor; [constructor; assumption|].
      constructor; [exact E|].
      rewrite Forall_forall in *. intros z Hz.
      eapply cmp_trans; [exact E | apply Hy, Hz].
    + constructor; [exact IH|].
      rewrite Forall_forall in *. intros z Hz.
      apply In_insert_unique in Hz. destruct Hz as [-> | Hz].
      * unfold below. rewrite cmp_antisym, E. reflexivity.
      * apply Hy, Hz.
Qed.

Lemma sort_unique_sorted l : StronglySorted (below cmp) (sort_unique cmp l).
Proof.
  induction l; simpl; [constructor | apply insert_unique_sorted; assumption].
Qed.

Lemma sorted_NoDup l : StronglySorted (below cmp) l -> NoDup l.
Proof.
  induction 1 as [|y l Hl IH Hy]; constructor; [|assumption].
  intros Hin. rewrite Forall_forall in Hy. specialize (Hy _ Hin).
  unfold below in Hy. rewrite cmp_refl in Hy. discriminate.
Qed.

Lemma sort_unique_NoDup l : NoDup (sort_unique cmp l).
Proof. apply sorted_NoDup, sort_unique_sorted. Qed.

End SortUnique.

Lemma string_compare_trans (a b c : string) :
  String.compare a b = Lt -> String.compare b c = Lt -> String.compare a c = Lt.
Proof.
  intros H1 H2.
  apply String_as_OT.cmp_lt. apply String_as_OT.cmp_lt in H1, H2.
  eapply String_as_OT.lt_trans; eassumption.
Qed.

Lemma In_np_unique h col : In h (np_unique col) <-> In h col.
Proof. apply In_sort_unique, String.compare_eq_iff. Qed.

Lemma np_unique_NoDup col : NoDup (np_unique col).
Proof.
  apply sort_unique_NoDup.
  - apply String.compare_eq_iff.
  - apply String.compare_antisym.
  - apply string_compare_trans.
Qed.

Lemma isin_In values v : isin values v = true <-> In v values.
Proof.
  unfold isin. rewrite existsb_exists. split.
  - intros [x [Hx E]]. apply String.eqb_eq in E. subst. assumption.
  - intros H. exists v. split; [assumption | apply String.eqb_refl].
Qed.

(** The hosts found are hosts asked for, each counted once: there are never
    more of them than names in [host_name]. *)
Lemma found_hosts_le df host_name :
  (List.length
     (np_unique (map host (filter (fun r => isin host_name (host r)) df)))
   <= List.length host_name)%nat.
Proof.
  apply NoDup_incl_length; [apply np_unique_NoDup|].
  intros h Hh. apply -> In_np_unique in Hh.
  apply in_map_iff in Hh. destruct Hh as [r [<- Hr]].
  apply filter_In in Hr. destruct Hr as [_ Hr].
  apply isin_In. assumption.
Qed.

(** ** [filter_dataframe_for_plotting] *)

Lemma select_processing_units_neither df :
  select_processing_units df false false = ([], inl NothingToPlot).
Proof. reflexivity. Qed.

Lemma select_processing_units_both df :
  df <> [] -> select_processing_units df true true = ([PlottingGpuAndCpu], inr df).
Proof. destruct df; [contradiction | reflexivity]. Qed.

(** What the first block hands on: the rows of the processing units asked
    for, and at least one of them. *)
Lemma select_processing_units_value df gpu cpu df1 :
  outcome (select_processing_units df gpu cpu) = inr df1 ->
  df1 <> []
  /\ df1 = (if gpu && cpu then df
            else if gpu then rows_on_gpu df else rows_on_cpu df).
Proof.
  unfold select_processing_units.
  destruct gpu, cpu; simpl.
  - destruct df; simpl; intros H; inversion H. split; [discriminate | reflexivity].
  - destruct (rows_on_gpu df); simpl; intros H; inversion H.
    split; [discriminate | reflexivity].
  - destruct (rows_on_cpu df); simpl; intros H; inversion H.
    split; [discriminate | reflexivity].
  - discriminate.
Qed.

Lemma filter_isin_nil df : filter (fun r => isin [] (host r)) df = [].
Proof. induction df; simpl; trivial. Qed.

Lemma select_hosts_nil df : select_hosts df [] = ([PlottingAllHosts], inr df).
Proof. unfold select_hosts. rewrite filter_isin_nil. reflexivity. Qed.

Lemma select_hosts_outcome df host_name :
  let df_filtered_hosts := filter (fun r => isin host_name (host r)) df in
  let found := np_unique (map host df_filtered_hosts) in
  outcome (select_hosts df host_name) =
  if (List.length found <? List.length host_name)%nat then
    inl (HostsNotFound (np_unique (map host df)))
  else
    inr (match host_name with [] => df | _ :: _ => df_filtered_hosts end).
Proof.
  intros df_filtered_hosts found. unfold select_hosts.
  fold df_filtered_hosts. fold found.
  pose proof (found_hosts_le df host_name) as Hle.
  fold df_filtered_hosts in Hle. fold found in Hle.
  destruct (Nat.eqb_spec (List.length found) (List.length host_name)) as [E|E];
    destruct (Nat.ltb_spec (List.length found) (List.length host_name));
    try lia; simpl; [|reflexivity].
  destruct host_name; reflexivity.
Qed.

Lemma select_hosts_value df host_name df2 :
  df <> [] -> outcome (select_hosts df host_name) = inr df2 -> df2 <> [].
Proof.
  intros Hdf. rewrite select_hosts_outcome.
  destruct (Nat.ltb_spec
              (List.length (np_unique (map host
                 (filter (fun r => isin host_name (host r)) df))))
              (List.length host_name)) as [H|H]; [discriminate|].
  remember (filter (fun r => isin host_name (host r)) df) as kept eqn:Ek.
  clear Ek.
  destruct host_name as [|h hs]; intros E; inversion E; subst; [assumption|].
  intros Hnil. rewrite Hnil in H. simpl in H. lia.
Qed.

Lemma check_modules_engines df module_name :
  forallb (isin engines) module_name = true ->
  check_modules df module_name =
  (map PlottingAllModulesOfEngine module_name, inr tt).
Proof.
  induction module_name as [|m rest IH]; simpl; [reflexivity|].
  intros H. apply andb_true_iff in H. destruct H as [Hm Hrest].
  rewrite Hm, (IH Hrest). reflexivity.
Qed.

Section FilterFacts.

Variable str_contains : string -> string -> bool.

Lemma select_modules_nil df :
  df <> [] ->
  select_modules str_contains df [] = ([PlottingAllModules], inr df).
Proof. destruct df; [contradiction | reflexivity]. Qed.

Lemma select_modules_engines df module_name :
  module_name <> [] ->
  forallb (isin engines) module_name = true ->
  outcome (select_modules str_contains df module_name) =
  let kept :=
    filter (fun r => str_contains (String.concat "|" module_name) (module r))
           df in
  if empty kept then inl NoBenchmarkInformation else inr kept.
Proof.
  intros Hne He. unfold select_modules.
  rewrite (check_modules_engines df module_name He).
  destruct module_name as [|m rest]; [contradiction|]. simpl.
  destruct (filter _ df); reflexivity.
Qed.

Lemma filter_outcome df host_name module_name gpu cpu :
  outcome (filter_dataframe_for_plotting str_contains df host_name
                                         module_name gpu cpu) =
  match outcome (select_processing_units df gpu cpu) with
  | inl e => inl e
  | inr df1 =>
      match outcome (select_hosts df1 host_name) with
      | inl e => inl e
      | inr df2 => outcome (select_modules str_contains df2 module_name)
      end
  end.
Proof.
  unfold filter_dataframe_for_plotting, bind, outcome.
  destruct (select_processing_units df gpu cpu) as [l [e|df1]];
    simpl; [reflexivity|].
  destruct (select_hosts df1 host_name) as [l' [e|df2]];
    simpl; [reflexivity|].
  destruct (select_modules str_contains df2 module_name). reflexivity.
Qed.

(** A frame that comes out of the selection has a row. *)
Lemma filter_value_nonempty df host_name module_name gpu cpu df' :
  outcome (filter_dataframe_for_plotting str_contains df host_name
                                         module_name gpu cpu) = inr df' ->
  df' <> [].
Proof.
  rewrite filter_outcome.
  destruct (outcome (select_processing_units df gpu cpu)); [discriminate|].
  destruct (outcome (select_hosts d host_name)); [discriminate|].
  unfold select_modules, bind, outcome.
  destruct (check_modules d0 module_name) as [l [e|[]]]; simpl;
    [discriminate|].
  destruct (List.length module_name =? 0)%nat; simpl.
  - destruct d0; simpl; [discriminate|]. intros H; inversion H. discriminate.
  - destruct (filter _ d0); simpl; [discriminate|].
    intros H; inversion H. discriminate.
Qed.

End FilterFacts.

(** C5: with neither GPU nor CPU asked for, the selection ends with the
    error "nothing to plot", whatever the rows, hosts and modules; the run
    ends there, so whatever follows the selection - in [plot], the grouping
    of [plot_over_group] first - is not reached. *)
Theorem neither_gpu_nor_cpu_is_an_error :
  forall str_contains df host_name module_name,
    filter_dataframe_for_plotting str_contains df host_name module_name
                                  false false
    = ([], inl NothingToPlot)
    /\ (forall (B : Type) (k : dataframe -> run B),
           bind (filter_dataframe_for_plotting str_contains df host_name
                                               module_name false false) k
           = ([], inl NothingToPlot))
    /\ (forall plot_cores fit xtick_step watermark,
           plot str_contains df host_name module_name false false
                plot_cores fit xtick_step watermark
           = ([], inl NothingToPlot)).
Proof.
  intros. repeat split; intros; reflexivity.
Qed.

(** C9: on a frame with at least one row, the selection with no host, no
    module and both processing units returns the frame as it is, the same
    rows in the same order. *)
Theorem filter_all_inclusive :
  forall str_contains df,
    df <> [] ->
    filter_dataframe_for_plotting str_contains df [] [] true true
    = ([PlottingGpuAndCpu; PlottingAllHosts; PlottingAllModules], inr df).
Proof.
  intros sc df Hdf. unfold filter_dataframe_for_plotting.
  rewrite (select_processing_units_both df Hdf). unfold bind at 1.
  rewrite select_hosts_nil. unfold bind.
  rewrite (select_modules_nil sc df Hdf). reflexivity.
Qed.

Lemma filter_all_inclusive_witness :
  [gromacs_row; namd_row; gpu_row] <> []
  /\ filter_dataframe_for_plotting re_search [gromacs_row; namd_row; gpu_row]
                                   [] [] true true
     = ([PlottingGpuAndCpu; PlottingAllHosts; PlottingAllModules],
        inr [gromacs_row; namd_row; gpu_row]).
Proof.
  split; [discriminate|].
  apply (filter_all_inclusive re_search [gromacs_row; namd_row; gpu_row]).
  discriminate.
Defined.












Lemma filter_all_true {A} (f : A -> bool) (l : list A) :
  forallb f l = true -> filter f l = l.
Proof.
  induction l as [|x l IH]; simpl; [reflexivity|].
  intros H. apply andb_true_iff in H. destruct H as [Hx Hl].
  rewrite Hx, (IH Hl). reflexivity.
Qed.

(** C1, as the code has it: when modules are asked for and all of them are
    engine names ("gromacs", "namd"), the check that a module exists in the
    data is not made for them, but the rows are still restricted to those
    whose module matches the pattern made of the names joined by "|".  The
    result is what the empty module selection gives, filtered by that
    pattern, and an error when no row is left; it is the same rows when each
    of them matches. *)
Theorem filter_engine_modules :
  forall str_contains df host_name module_name gpu cpu,
    module_name <> [] ->
    forallb (isin engines) module_name = true ->
    let selected :=
      outcome (filter_dataframe_for_plotting str_contains df host_name
                                             module_name gpu cpu) in
    let unrestricted :=
      outcome (filter_dataframe_for_plotting str_contains df host_name []
                                             gpu cpu) in
    let wanted (r : row) :=
      str_contains (String.concat "|" module_name) (module r) in
    selected =
      match unrestricted with
      | inl e => inl e
      | inr rows =>
          if empty (filter wanted rows) then inl NoBenchmarkInformation
          else inr (filter wanted rows)
      end
    /\ (forall rows,
           unrestricted = inr rows ->
           forallb wanted rows = true -> selected = inr rows).
Proof.
  intros sc df host_name module_name gpu cpu Hne He selected unrestricted
         wanted.
  assert (Hmain : selected =
                  match unrestricted with
                  | inl e => inl e
                  | inr rows =>
                      if empty (filter wanted rows)
                      then inl NoBenchmarkInformation
                      else inr (filter wanted rows)
                  end).
  { unfold selected, unrestricted. rewrite !filter_outcome.
    destruct (outcome (select_processing_units df gpu cpu)) as [e|df1] eqn:H1;
      [reflexivity|].
    destruct (select_processing_units_value _ _ _ _ H1) as [Hne1 _].
    destruct (outcome (select_hosts df1 host_name)) as [e|df2] eqn:H2;
      [reflexivity|].
    pose proof (select_hosts_value df1 host_name df2 Hne1 H2) as Hne2.
    rewrite (select_modules_nil sc df2 Hne2).
    rewrite (select_modules_engines sc df2 module_name Hne He).
    reflexivity. }
  split; [exact Hmain|].
  intros rows Hrows Hall. rewrite Hmain, Hrows.
  rewrite (filter_all_true wanted rows Hall).
  unfold unrestricted in Hrows.
  apply filter_value_nonempty in Hrows.
  destruct rows; [contradiction | reflexivity].
Qed.

Lemma filter_engine_modules_witness :
  ["gromacs"]%string <> []
  /\ forallb (isin engines) ["gromacs"]%string = true
  /\ outcome (filter_dataframe_for_plotting
                re_search [gromacs_row; namd_row; gpu_row] []
                ["gromacs"]%string true true)
     = inr [gromacs_row; gpu_row].
Proof.
  split; [discriminate|]. split; [reflexivity|].
  exact (proj1 (filter_engine_modules
                  re_search [gromacs_row; namd_row; gpu_row] []
                  ["gromacs"]%string true true
                  ltac:(discriminate) eq_refl)).
Defined.

(** C1 as stated fails: on a frame with a GROMACS and a NAMD row, asking for
    the module "gromacs" returns the GROMACS row only, asking for no module
    returns both rows. *)
Lemma engine_modules_restrict_rows :
  outcome (filter_dataframe_for_plotting re_search [gromacs_row; namd_row] []
                                         ["gromacs"]%string true true)
  = inr [gromacs_row]
  /\ outcome (filter_dataframe_for_plotting re_search [gromacs_row; namd_row]
                                            [] [] true true)
     = inr [gromacs_row; namd_row]
  /\ outcome (filter_dataframe_for_plotting re_search [gromacs_row; namd_row]
                                            [] ["gromacs"]%string true true)
     <> outcome (filter_dataframe_for_plotting re_search
                                               [gromacs_row; namd_row]
                                               [] [] true true).
Proof.
  split; [reflexivity|]. split; [reflexivity|].
  vm_compute. intros H. discriminate H.
Qed.

(** ** [plot_over_group] *)

Lemma bool_compare_eq (a b : bool) : Bool.compare a b = Eq -> a = b.
Proof. destruct a, b; simpl; congruence. Qed.

Lemma key_compare_eq (a b : key) : key_compare a b = Eq -> a = b.
Proof.
  destruct a as [[g1 m1] h1], b as [[g2 m2] h2]. simpl.
  destruct (Bool.compare g1 g2) eqn:Eg; try discriminate.
  destruct (String.compare m1 m2) eqn:Em; try discriminate.
  intros Eh.
  apply bool_compare_eq in Eg. apply String.compare_eq_iff in Em, Eh.
  subst. reflexivity.
Qed.

Lemma string_compare_refl (s : string) : String.compare s s = Eq.
Proof.
  pose proof (String.compare_antisym s s) as H.
  destruct (String.compare s s); simpl in H; congruence.
Qed.

Lemma key_compare_refl (a : key) : key_compare a a = Eq.
Proof.
  destruct a as [[g m] h]. simpl.
  replace (Bool.compare g g) with Eq by (destruct g; reflexivity).
  rewrite !string_compare_refl. reflexivity.
Qed.

Lemma key_eqb_eq (a b : key) : key_eqb a b = true <-> a = b.
Proof.
  unfold key_eqb. split.
  - destruct (key_compare a b) eqn:E; try discriminate.
    intros _. apply key_compare_eq, E.
  - intros ->. rewrite key_compare_refl. reflexivity.
Qed.

Lemma In_groupby df k s :
  In (k, s) (groupby df) <->
  In k (map row_key df) /\ s = filter (fun r => key_eqb k (row_key r)) df.
Proof.
  unfold groupby. split.
  - intros H. apply in_map_iff in H. destruct H as [k' [E Hk']].
    inversion E; subst.
    split; [|reflexivity].
    apply (In_sort_unique key_compare key_compare_eq). assumption.
  - intros [Hk ->]. apply in_map_iff. exists k. split; [reflexivity|].
    apply (In_sort_unique key_compare key_compare_eq). assumption.
Qed.

Lemma filter_ascending selection (f : row -> bool) df :
  ascending selection df -> ascending selection (filter f df).
Proof.
  unfold ascending. intros H.
  apply StronglySorted_Sorted.
  apply Sorted_StronglySorted in H; [|intros a b c; lia].
  induction H as [|r l Hl IH Hr]; simpl; [constructor|].
  destruct (f r); [|assumption].
  constructor; [assumption|].
  rewrite Forall_forall in *. intros x Hx.
  apply filter_In in Hx. apply Hr, Hx.
Qed.

(** The lines drawn by [plot_over_group] on a fresh [Axes]: for each group in
    turn its measurements, in the order of the group's rows, followed by the
    projection when a fit is asked for and the group has two rows or more. *)
Lemma plot_over_group_artists df plot_cores fit :
  artists (plot_over_group df plot_cores fit new_axes) =
  flat_map
    (fun '(k, s) =>
       Line (group_label k)
            (map (fun r => (selection plot_cores r, ns_day r)) s)
       :: (if fit && (1 <? List.length s)%nat
           then [Projection (plot_projection s (selection plot_cores))]
           else []))
    (groupby df).
Proof.
  unfold plot_over_group. simpl.
  change (artists new_axes) with (@nil artist).
  assert (H : forall gb ax,
             artists
               (fold_left
                  (fun ax '(k, df) =>
                     plot_line df (selection plot_cores) (group_label k) fit ax)
                  gb ax) =
             artists ax ++
             flat_map
               (fun '(k, s) =>
                  Line (group_label k)
                       (map (fun r => (selection plot_cores r, ns_day r)) s)
                  :: (if fit && (1 <? List.length s)%nat
                      then [Projection (plot_projection s (selection plot_cores))]
                      else []))
               gb).
  { induction gb as [|[k s] gb IH]; intros ax; simpl.
    - rewrite app_nil_r. reflexivity.
    - rewrite IH. unfold plot_line.
      destruct (fit && (1 <? List.length s)%nat); simpl;
        rewrite <- ?app_assoc; reflexivity. }
  rewrite H. reflexivity.
Qed.

(** C2, as the code has it: a series is the rows of the frame that share its
    key, in the order they have in the frame (the grouping does not sort
    them), and it has at least one row.  Its rows are in ascending order of
    the x column when the rows of the frame are. *)
Theorem series_keep_row_order :
  forall df plot_cores k s,
    In (k, s) (groupby df) ->
    s = filter (fun r => key_eqb k (row_key r)) df
    /\ s <> []
    /\ (forall r, In r s <-> In r df /\ row_key r = k)
    /\ (ascending (selection plot_cores) df ->
        ascending (selection plot_cores) s).
Proof.
  intros df plot_cores k s H.
  apply In_groupby in H. destruct H as [Hk ->].
  split; [reflexivity|].
  assert (Hin : forall r,
             In r (filter (fun r => key_eqb k (row_key r)) df) <->
             In r df /\ row_key r = k).
  { intros r. rewrite filter_In, key_eqb_eq.
    split; intros [Ha Hb]; split; congruence. }
  split.
  { apply in_map_iff in Hk. destruct Hk as [r [Hr Hdf]].
    intros Hnil.
    assert (Hr' : In r (filter (fun r => key_eqb k (row_key r)) df))
      by (apply Hin; split; assumption).
    rewrite Hnil in Hr'. contradiction. }
  split; [exact Hin|].
  apply filter_ascending.
Qed.

Lemma series_keep_row_order_witness :
  In ((false, "namd/2.12", "draco")%string, [namd_row_1; namd_row])
     (groupby [gromacs_row; namd_row_1; namd_row])
  /\ ascending (selection false) [namd_row_1; namd_row].
Proof.
  assert (H : In ((false, "namd/2.12", "draco")%string, [namd_row_1; namd_row])
                 (groupby [gromacs_row; namd_row_1; namd_row]))
    by (vm_compute; right; left; reflexivity).
  split; [exact H|].
  apply (series_keep_row_order [gromacs_row; namd_row_1; namd_row] false _ _ H).
  unfold ascending.
  repeat constructor; vm_compute; discriminate.
Defined.

(** C2 as stated fails: where the frame has the run on 2 nodes before the
    run on 1 node, the series has them in that order, for either x column. *)
Lemma series_not_ascending :
  In [namd_row; namd_row_1] (series [namd_row; namd_row_1])
  /\ ~ ascending (selection false) [namd_row; namd_row_1]
  /\ ~ ascending (selection true) [namd_row; namd_row_1].
Proof.
  split; [vm_compute; left; reflexivity|].
  split; intros H; inversion H as [|a l Hl Hd]; subst;
    inversion Hd as [|b l' Hab]; subst; vm_compute in Hab; apply Hab;
    reflexivity.
Qed.

(** ** [plot_projection] *)




(** ** Ticks of the y axis *)

Local Open Scope Q_scope.

Lemma astype_int_floor (q : Q) : 0 <= q -> astype_int q = Qfloor q.
Proof.
  intros H. unfold astype_int.
  destruct (Qle_bool 0 q) eqn:E; [reflexivity|].
  apply Qle_bool_iff in H. congruence.
Qed.

Lemma yticks_steps_floor (max_y : Q) :
  0 <= max_y -> yticks_steps max_y = Qfloor ((max_y + 1) / 10).
Proof.
  intros H. unfold yticks_steps. apply astype_int_floor.
  apply Qle_shift_div_l; lra.
Qed.

Lemma yticks_steps_ge_1 (max_y : Q) : 9 <= max_y -> (1 <= yticks_steps max_y)%Z.
Proof.
  intros H. rewrite yticks_steps_floor by lra.
  assert (H1 : (Qfloor 1 <= Qfloor ((max_y + 1) / 10))%Z).
  { apply Qfloor_resp_le. apply Qle_shift_div_l; lra. }
  exact H1.
Qed.

Lemma yticks_steps_le (max_y : Q) :
  0 <= max_y -> inject_Z (yticks_steps max_y) <= (max_y + 1) / 10.
Proof.
  intros H. rewrite yticks_steps_floor by assumption. apply Qfloor_le.
Qed.

(** C3, as the code has it: when the largest performance of the frame is at
    least 9, the interval of the y ticks is [floor((max_y + 1) / 10)] and at
    least 1, and the ticks are the multiples [0, interval, 2*interval, ...]
    below [max_y * 1.25], at least two of them. *)
Theorem yticks_interval :
  forall df max_y,
    column_max_float (map ns_day df) = ret max_y ->
    9 <= max_y ->
    let interval := yticks_steps max_y in
    let top := max_y + max_y * (25 # 100) in
    interval = Qfloor ((max_y + 1) / 10)
    /\ (1 <= interval)%Z
    /\ exists n,
        (2 <= n)%nat
        /\ update_yticks df =
           ret (interval,
                map (fun i => 0 + inject_Z (Z.of_nat i) * inject_Z interval)
                    (seq 0 n),
                top)
        /\ forall i, (i < n)%nat ->
                     0 <= inject_Z (Z.of_nat i) * inject_Z interval < top.
Proof.
  intros df max_y Hmax H9 interval top.
  pose proof (yticks_steps_ge_1 max_y H9) as H1. fold interval in H1.
  assert (H0 : 0 <= max_y) by lra.
  pose proof (yticks_steps_le max_y H0) as Hle. fold interval in Hle.
  split; [apply yticks_steps_floor; exact H0|].
  split; [exact H1|].
  assert (Hpos : 0 < inject_Z interval).
  { change 0 with (inject_Z 0). rewrite <- Zlt_Qlt. lia. }
  assert (Hdiv : (max_y + 1) / 10 < top).
  { apply Qlt_shift_div_r; unfold top; lra. }
  set (x := (top - 0) / inject_Z interval).
  assert (Hx : 1 < x).
  { unfold x. apply Qlt_shift_div_l; [exact Hpos|]. lra. }
  assert (Hc : (2 <= Qceiling x)%Z).
  { pose proof (Qle_ceiling x) as Hu.
    destruct (Z_lt_le_dec (Qceiling x) 2) as [Hlt|]; [|assumption].
    exfalso.
    assert (Hq : inject_Z (Qceiling x) <= inject_Z 1)
      by (rewrite <- Zle_Qle; lia).
    change (inject_Z 1) with 1%Q in Hq. lra. }
  exists (Z.to_nat (Qceiling x)).
  split; [lia|]. split.
  - unfold update_yticks. rewrite Hmax, bind_ret.
    destruct (Qeq_bool max_y 0) eqn:E0.
    { apply Qeq_bool_iff in E0. lra. }
    fold interval. fold top. unfold np_arange_float.
    destruct (Qeq_bool (inject_Z interval) 0) eqn:Ei.
    { apply Qeq_bool_iff in Ei. lra. }
    fold x. rewrite bind_ret. reflexivity.
  - intros i Hi.
    assert (Hi' : (Z.of_nat i <= Qceiling x - 1)%Z) by lia.
    rewrite Zle_Qle in Hi'.
    pose proof (Qceiling_lt x) as Hlt.
    assert (Hix : inject_Z (Z.of_nat i) < x) by lra.
    assert (Hi0 : 0 <= inject_Z (Z.of_nat i)).
    { change 0 with (inject_Z 0). rewrite <- Zle_Qle. lia. }
    split.
    + apply Qmult_le_0_compat; lra.
    + unfold x in Hix.
      apply (Qmult_lt_compat_r _ _ (inject_Z interval)) in Hix;
        [|exact Hpos].
      assert (Hcancel : (top - 0) / inject_Z interval * inject_Z interval
                        == top).
      { field. lra. }
      rewrite Hcancel in Hix. exact Hix.
Qed.

Lemma yticks_interval_witness :
  column_max_float (map ns_day [gromacs_row; namd_row]) = ret (98 # 1)
  /\ 9 <= 98 # 1
  /\ yticks_steps (98 # 1) = 9%Z
  /\ (1 <= yticks_steps (98 # 1))%Z.
Proof.
  split; [reflexivity|].
  split; [vm_compute; discriminate|].
  destruct (yticks_interval [gromacs_row; namd_row] (98 # 1) eq_refl
              ltac:(vm_compute; discriminate))
    as (Hfloor & Hge & _).
  split; [rewrite Hfloor; reflexivity | exact Hge].
Defined.

(** C3 as stated fails: with a largest performance of 5 ns/day the interval
    is [floor(6 / 10) = 0], not at least 1, and [np.arange] raises on the
    zero step. *)
Lemma yticks_interval_zero :
  column_max_float (map ns_day [slow_row]) = ret (5 # 1)
  /\ 0 < 5 # 1
  /\ yticks_steps (5 # 1) = Qfloor (((5 # 1) + 1) / 10)
  /\ yticks_steps (5 # 1) = 0%Z
  /\ ~ (1 <= yticks_steps (5 # 1))%Z
  /\ update_yticks [slow_row] = raise ZeroStep.
Proof.
  split; [reflexivity|]. split; [reflexivity|].
  split; [reflexivity|]. split; [reflexivity|].
  split; [vm_compute; intros H; apply H; reflexivity | reflexivity].
Qed.

(** ** Ticks of the x axis *)

Local Open Scope Z_scope.

Lemma ceil_div_1 (a : Z) : ceil_div a 1 = a.
Proof. unfold ceil_div. rewrite Z.div_1_r. lia. Qed.

Lemma arange_from_1 (n : nat) :
  map (fun i => 1 + Z.of_nat i * 1) (seq 0 n) = map Z.of_nat (seq 1 n).
Proof.
  rewrite <- seq_shift, map_map. apply map_ext. intros i. lia.
Qed.

Lemma int64_range (z : Z) :
  int64 z = true <-> - 9223372036854775808 <= z < 9223372036854775808.
Proof. unfold int64. rewrite andb_true_iff, Z.leb_le, Z.ltb_lt. tauto. Qed.

Lemma wrap64_id (z : Z) : int64 z = true -> wrap64 z = z.
Proof.
  intros H. apply int64_range in H. unfold wrap64.
  rewrite Z.mod_small by lia. lia.
Qed.

Lemma wrap64_add_sub (a b : Z) : wrap64 (wrap64 (a + b) - b) = wrap64 a.
Proof.
  unfold wrap64.
  replace ((a + b + 9223372036854775808) mod 18446744073709551616
           - 9223372036854775808 - b + 9223372036854775808)
    with ((a + b + 9223372036854775808) mod 18446744073709551616 - b)
    by lia.
  rewrite Zminus_mod_idemp_l.
  replace (a + b + 9223372036854775808 - b)
    with (a + 9223372036854775808) by lia.
  reflexivity.
Qed.

Lemma fit_id (int64_dtype : bool) (z : Z) :
  int64 z = true -> fit int64_dtype z = z.
Proof. intros H. destruct int64_dtype; [apply wrap64_id, H | reflexivity]. Qed.

Lemma column_max_In (col : list Z) (m : Z) :
  column_max col = ret m -> In m col.
Proof.
  destruct col as [|x l]; [discriminate|]. simpl.
  intros H. injection H as <-. revert x.
  induction l as [|y l IH]; intros x; simpl; [left; reflexivity|].
  destruct (IH (Z.max x y)) as [E|Hin]; [|right; right; exact Hin].
  destruct (Z.max_spec x y) as [[_ Hm]|[_ Hm]].
  - right. left. rewrite <- E. symmetry. exact Hm.
  - left. rewrite <- E. symmetry. exact Hm.
Qed.

(** The grid per node, from 1 to the largest count: a column of int64 has
    an int64 as its largest count, and the sum and the difference of
    [np.arange] give it back, also where [max + 1] wraps. *)
Lemma arange_per_node (int64_dtype : bool) (m : Z) :
  (int64_dtype = true -> int64 m = true) ->
  np_arange int64_dtype 1 (fit int64_dtype (m + 1)) 1
  = ret (map Z.of_nat (seq 1 (Z.to_nat m))).
Proof.
  intros Hm. unfold np_arange. simpl (1 =? 0).
  assert (Hr : fit int64_dtype (fit int64_dtype (m + 1) - 1) = m).
  { destruct int64_dtype; cbn [fit]; [|lia].
    rewrite wrap64_add_sub. apply wrap64_id, Hm. reflexivity. }
  rewrite Hr, ceil_div_1. f_equal.
  rewrite <- seq_shift, map_map. apply map_ext_in.
  intros i Hi. apply in_seq in Hi.
  destruct int64_dtype; cbn [fit]; [|lia].
  specialize (Hm eq_refl). apply int64_range in Hm.
  rewrite wrap64_id; [lia|]. apply int64_range. lia.
Qed.

Lemma int64_column_max (col : list Z) (m : Z) :
  column_max col = ret m -> forallb int64 col = true -> int64 m = true.
Proof.
  intros Hm Hall. apply column_max_In in Hm.
  rewrite forallb_forall in Hall. apply Hall, Hm.
Qed.

Lemma slice_step_value {A} (xs : list A) (step : Z) :
  step <> 0 -> exists ticks, slice_step xs step = ret ticks.
Proof.
  intros H. unfold slice_step.
  destruct (Z.eqb_spec step 0); [contradiction|].
  destruct (step >? 0); eexists; reflexivity.
Qed.

(** C10: when the performance is plotted per node, the ticks start from the
    constant 1, whatever the smallest number of nodes in the frame: the
    candidate ticks are 1, 2, ..., max_nodes, the ticks set are every
    step-th of them, and the limits are [1 - 0.5*step] and
    [max_nodes + 0.5*step]. *)
Theorem xticks_per_node :
  forall df xtick_step max_nodes,
    column_max (map nodes df) = ret max_nodes ->
    let candidates := map Z.of_nat (seq 1 (Z.to_nat max_nodes)) in
    let step :=
      get_xsteps (Z.of_nat (List.length candidates)) 1 false xtick_step in
    exists ticks lo hi,
      update_xticks df false xtick_step
      = ret (candidates, step, ticks, (lo, hi))
      /\ slice_step candidates step = ret ticks
      /\ (lo == 1 - (1 # 2) * inject_Z step)%Q
      /\ (hi == inject_Z max_nodes + (1 # 2) * inject_Z step)%Q.
Proof.
  intros df xtick_step max_nodes Hmax candidates step.
  destruct (slice_step_value candidates step) as [ticks Ht].
  { apply get_xsteps_nonzero. }
  exists ticks. eexists. eexists.
  split; [|split; [exact Ht|]].
  - unfold update_xticks. simpl selection.
    rewrite bind_ret, Hmax, bind_ret.
    rewrite arange_per_node by (apply int64_column_max, Hmax).
    rewrite bind_ret.
    fold candidates. fold step. rewrite Ht, bind_ret. reflexivity.
  - split; [change (inject_Z 1) with 1%Q; lra|].
    change (inject_Z 1) with 1%Q. lra.
Qed.

Lemma xticks_per_node_witness :
  column_max (map nodes [namd_row; namd_row_1]) = ret 2
  /\ exists ticks lo hi,
      update_xticks [namd_row; namd_row_1] false None
      = ret ([1; 2], 1, ticks, (lo, hi))
      /\ slice_step [1; 2] 1 = ret ticks
      /\ (lo == 1 - (1 # 2) * inject_Z 1)%Q
      /\ (hi == inject_Z 2 + (1 # 2) * inject_Z 1)%Q.
Proof.
  split; [reflexivity|].
  exact (xticks_per_node [namd_row; namd_row_1] None 2 eq_refl).
Defined.

(** After a selection that succeeds the frame has a row, so the minimum and
    the maxima taken in [plot] are numbers. *)
Lemma column_max_value df :
  df <> [] -> exists m, column_max (map nodes df) = ret m.
Proof.
  destruct df as [|r df]; [contradiction|]. intros _.
  eexists. reflexivity.
Qed.

(** ** Sample runs *)

Example filter_gpu_only :
  filter_dataframe_for_plotting re_search [gromacs_row; namd_row; gpu_row]
                                [] [] true false
  = ([PlottingGpuOnly; PlottingAllHosts; PlottingAllModules], inr [gpu_row]).
Proof. reflexivity. Qed.

Example filter_unknown_module :
  filter_dataframe_for_plotting re_search [gromacs_row; namd_row] []
                                ["lammps"]%string true true
  = ([PlottingGpuAndCpu; PlottingAllHosts], inl (ModuleMissing "lammps")).
Proof. reflexivity. Qed.

Example filter_one_host :
  filter_dataframe_for_plotting re_search [gromacs_row; namd_row; gpu_row]
                                ["hydra"]%string [] true true
  = ([PlottingGpuAndCpu; PlottingHosts ["hydra"%string]; PlottingAllModules],
     inr [gpu_row]).
Proof. reflexivity. Qed.

(** A host given twice counts twice in [len(host_name)]. *)
Example filter_host_given_twice :
  outcome (filter_dataframe_for_plotting re_search [gromacs_row; gpu_row]
                                         ["hydra"; "hydra"]%string [] true true)
  = inl (HostsNotFound ["draco"; "hydra"]%string).
Proof. reflexivity. Qed.

Example plot_slow_system :
  outcome (plot re_search [slow_row] [] [] true true false true None true)
  = inl ZeroStep.
Proof. reflexivity. Qed.

Example plot_two_runs :
  option_map artists
    (match outcome (plot re_search [namd_row_1; namd_row] [] [] true true
                         false true None true) with
     | inr ax => Some ax
     | inl _ => None
     end)
  = Some [Line "draco - namd/2.12 on CPUs" [(1, 7 # 1); (2, 12 # 1)];
          Projection (Some [(0, 2); (1, 7); (2, 12); (3, 17)]%Q)].
Proof. vm_compute. reflexivity. Qed.

(** * Further properties of the selection *)

Lemma check_modules_outcome df module_name :
  outcome (check_modules df module_name) =
  match find (unknown_module df) module_name with
  | Some m => inl (ModuleMissing m)
  | None => inr tt
  end.
Proof.
  induction module_name as [|m rest IH]; [reflexivity|].
  cbn [check_modules find]. unfold unknown_module at 1.
  unfold outcome, bind, console_info, console_error in *.
  destruct (isin engines m) eqn:He; cbn [negb andb].
  - destruct (check_modules df rest) as [l r]. exact IH.
  - destruct (isin (map module df) m) eqn:Hm; cbn [negb andb].
    + destruct (check_modules df rest) as [l r]. exact IH.
    + reflexivity.
Qed.

Lemma select_modules_outcome str_contains df module_name :
  outcome (select_modules str_contains df module_name) =
  match find (unknown_module df) module_name with
  | Some m => inl (ModuleMissing m)
  | None =>
      let kept := filter (module_wanted str_contains module_name) df in
      if empty kept then inl NoBenchmarkInformation else inr kept
  end.
Proof.
  unfold select_modules.
  pose proof (check_modules_outcome df module_name) as Hc.
  destruct (check_modules df module_name) as [l [e|[]]];
    unfold outcome in Hc; cbn [snd] in Hc;
    destruct (find (unknown_module df) module_name); try discriminate.
  - inversion Hc. reflexivity.
  - clear Hc.
    destruct module_name as [|m rest]; simpl.
    + rewrite (filter_all_true (module_wanted str_contains []) df)
        by (apply forallb_forall; reflexivity).
      destruct df; reflexivity.
    + destruct (filter _ df); reflexivity.
Qed.

Lemma select_hosts_kept df host_name df2 :
  outcome (select_hosts df host_name) = inr df2 ->
  df2 = filter (host_wanted host_name) df.
Proof.
  rewrite select_hosts_outcome.
  destruct (_ <? _)%nat; [discriminate|].
  intros H. inversion H. destruct host_name; [|reflexivity].
  simpl. symmetry. apply filter_all_true, forallb_forall. reflexivity.
Qed.

Lemma select_processing_units_kept df want_gpu want_cpu df1 :
  outcome (select_processing_units df want_gpu want_cpu) = inr df1 ->
  df1 = filter (unit_wanted want_gpu want_cpu) df.
Proof.
  intros H. destruct (select_processing_units_value _ _ _ _ H) as [_ ->].
  unfold unit_wanted, rows_on_gpu, rows_on_cpu.
  destruct want_gpu, want_cpu; simpl; try reflexivity.
  symmetry. apply filter_all_true, forallb_forall. reflexivity.
Qed.

(** X1: what a selection returns is never a new or reordered frame: it is
    the input with the rows dropped that are not of a wanted processing
    unit, host or module, in the input's order, and it has a row. *)
Theorem selection_keeps_wanted_rows :
  forall str_contains df host_name module_name want_gpu want_cpu selected,
    outcome (filter_dataframe_for_plotting str_contains df host_name
                                           module_name want_gpu want_cpu)
    = inr selected ->
    selected
    = filter (module_wanted str_contains module_name)
        (filter (host_wanted host_name)
           (filter (unit_wanted want_gpu want_cpu) df))
    /\ selected <> []
    /\ (forall r, In r selected ->
                  In r df
                  /\ unit_wanted want_gpu want_cpu r = true
                  /\ host_wanted host_name r = true
                  /\ module_wanted str_contains module_name r = true).
Proof.
  intros sc df host_name module_name want_gpu want_cpu selected H.
  pose proof (filter_value_nonempty _ _ _ _ _ _ _ H) as Hne.
  rewrite filter_outcome in H.
  destruct (outcome (select_processing_units df want_gpu want_cpu))
    as [e|df1] eqn:H1; [discriminate|].
  destruct (outcome (select_hosts df1 host_name)) as [e|df2] eqn:H2;
    [discriminate|].
  apply select_processing_units_kept in H1.
  apply select_hosts_kept in H2.
  rewrite select_modules_outcome in H.
  destruct (find (unknown_module df2) module_name); [discriminate|].
  simpl in H.
  destruct (empty (filter (module_wanted sc module_name) df2));
    [discriminate|].
  injection H as Hs. subst df2 df1 selected.
  split; [reflexivity|]. split; [exact Hne|].
  intros r Hr.
  apply filter_In in Hr. destruct Hr as [Hr Hm].
  apply filter_In in Hr. destruct Hr as [Hr Hh].
  apply filter_In in Hr. destruct Hr as [Hr Hu].
  repeat split; assumption.
Qed.

Lemma selection_keeps_wanted_rows_witness :
  outcome (filter_dataframe_for_plotting
             re_search [gromacs_row; namd_row; gpu_row]
             ["draco"]%string ["namd/2.12"]%string true true)
  = inr [namd_row]
  /\ [namd_row] <> [].
Proof.
  split; [reflexivity|].
  exact (proj1 (proj2 (selection_keeps_wanted_rows
                         re_search [gromacs_row; namd_row; gpu_row]
                         ["draco"]%string ["namd/2.12"]%string true true
                         [namd_row] eq_refl))).
Defined.

Lemma select_processing_units_outcome df want_gpu want_cpu :
  outcome (select_processing_units df want_gpu want_cpu) =
  if negb want_gpu && negb want_cpu then inl NothingToPlot
  else if empty (filter (unit_wanted want_gpu want_cpu) df)
       then inl EmptyDataset
       else inr (filter (unit_wanted want_gpu want_cpu) df).
Proof.
  unfold select_processing_units, unit_wanted, rows_on_gpu, rows_on_cpu.
  destruct want_gpu, want_cpu; cbn [negb andb]; try reflexivity.
  - rewrite (filter_all_true (fun _ => true) df)
      by (apply forallb_forall; reflexivity).
    destruct df; reflexivity.
  - destruct (filter gpu df); reflexivity.
  - destruct (filter (fun r => negb (gpu r)) df); reflexivity.
Qed.

(** X2: a selection ends with the error "empty dataset" exactly when a
    processing unit is asked for and the frame has no row of the units
    asked for - the frame without any row included - whatever hosts and
    modules are asked for. *)
Theorem empty_dataset_error :
  forall str_contains df host_name module_name want_gpu want_cpu,
    outcome (filter_dataframe_for_plotting str_contains df host_name
                                           module_name want_gpu want_cpu)
    = inl EmptyDataset
    <-> (want_gpu || want_cpu = true
         /\ filter (unit_wanted want_gpu want_cpu) df = []).
Proof.
  intros sc df host_name module_name want_gpu want_cpu.
  rewrite filter_outcome, select_processing_units_outcome.
  destruct (negb want_gpu && negb want_cpu) eqn:Hn.
  - split; [discriminate|]. intros [H _].
    destruct want_gpu, want_cpu; discriminate.
  - assert (Hw : want_gpu || want_cpu = true)
      by (destruct want_gpu, want_cpu; simpl in *; congruence).
    destruct (filter (unit_wanted want_gpu want_cpu) df) as [|r df1] eqn:Hf;
      cbn [empty].
    + split; [intros _; split; [exact Hw | reflexivity] | reflexivity].
    + split; [|intros [_ H]; discriminate].
      rewrite select_hosts_outcome.
      destruct (_ <? _)%nat; [discriminate|].
      rewrite select_modules_outcome.
      destruct (find _ module_name); [discriminate|].
      cbn zeta. destruct (empty _); discriminate.
Qed.

Lemma empty_dataset_error_witness :
  (true || false = true
   /\ filter (unit_wanted true false) [gromacs_row; namd_row] = [])
  /\ outcome (filter_dataframe_for_plotting
                re_search [gromacs_row; namd_row]
                ["hydra"]%string ["lammps"]%string true false)
     = inl EmptyDataset.
Proof.
  assert (H : true || false = true
              /\ filter (unit_wanted true false) [gromacs_row; namd_row] = [])
    by (split; reflexivity).
  split; [exact H|].
  exact (proj2 (empty_dataset_error
                  re_search [gromacs_row; namd_row]
                  ["hydra"]%string ["lammps"]%string true false) H).
Defined.

Lemma modules_step_outcome :
  forall str_contains df host_name module_name want_gpu want_cpu,
    outcome (filter_dataframe_for_plotting str_contains df host_name
                                           module_name want_gpu want_cpu)
    = match outcome (filter_dataframe_for_plotting
                       str_contains df host_name [] want_gpu want_cpu) with
      | inl e => inl e
      | inr rows =>
          match find (unknown_module rows) module_name with
          | Some m => inl (ModuleMissing m)
          | None =>
              if empty (filter (module_wanted str_contains module_name) rows)
              then inl NoBenchmarkInformation
              else inr (filter (module_wanted str_contains module_name) rows)
          end
      end.
Proof.
  intros sc df host_name module_name want_gpu want_cpu.
  rewrite !filter_outcome.
  destruct (outcome (select_processing_units df want_gpu want_cpu))
    as [e|df1] eqn:H1; [reflexivity|].
  destruct (select_processing_units_value _ _ _ _ H1) as [Hne1 _].
  destruct (outcome (select_hosts df1 host_name)) as [e|df2] eqn:H2;
    [reflexivity|].
  pose proof (select_hosts_value df1 host_name df2 Hne1 H2) as Hne2.
  rewrite (select_modules_nil sc df2 Hne2).
  apply select_modules_outcome.
Qed.

(** X3: the module options act on the rows that the same selection without
    modules returns.  The first requested name that is neither an engine
    name nor, exactly, the module of one of these rows ends the selection
    with the error naming it; otherwise the rows matching the pattern are
    returned, and an error when there is none. *)
Theorem modules_act_on_the_selected_rows :
  forall str_contains df host_name module_name want_gpu want_cpu,
    outcome (filter_dataframe_for_plotting str_contains df host_name
                                           module_name want_gpu want_cpu)
    = match outcome (filter_dataframe_for_plotting
                       str_contains df host_name [] want_gpu want_cpu) with
      | inl e => inl e
      | inr rows =>
          match find (unknown_module rows) module_name with
          | Some m => inl (ModuleMissing m)
          | None =>
              if empty (filter (module_wanted str_contains module_name) rows)
              then inl NoBenchmarkInformation
              else inr (filter (module_wanted str_contains module_name) rows)
          end
      end.
Proof. exact modules_step_outcome. Qed.

(** X4: a module the data has on another host only, or a prefix of a module
    name, is not found: with the rows selected without modules at hand, a
    requested name that is no engine name and not the module of one of them
    ends the selection with the error naming the first such name. *)
Theorem unknown_module_error :
  forall str_contains df host_name module_name want_gpu want_cpu rows m,
    outcome (filter_dataframe_for_plotting str_contains df host_name []
                                           want_gpu want_cpu)
    = inr rows ->
    find (unknown_module rows) module_name = Some m ->
    outcome (filter_dataframe_for_plotting str_contains df host_name
                                           module_name want_gpu want_cpu)
    = inl (ModuleMissing m)
    /\ In m module_name
    /\ ~ In m engines
    /\ (forall r, In r rows -> module r <> m).
Proof.
  intros sc df host_name module_name want_gpu want_cpu rows m Hrows Hfind.
  split.
  { rewrite modules_step_outcome, Hrows, Hfind. reflexivity. }
  apply find_some in Hfind. destruct Hfind as [Hin Hu].
  unfold unknown_module in Hu. apply andb_true_iff in Hu.
  destruct Hu as [He Hm].
  apply negb_true_iff in He, Hm.
  split; [exact Hin|]. split.
  - intros H. apply isin_In in H. congruence.
  - intros r Hr E.
    assert (H : isin (map module rows) m = true).
    { apply isin_In. rewrite <- E. apply in_map. exact Hr. }
    congruence.
Qed.

Lemma unknown_module_error_witness :
  outcome (filter_dataframe_for_plotting
             re_search [gromacs_row; namd_row; gpu_row]
             ["hydra"]%string [] true true)
  = inr [gpu_row]
  /\ find (unknown_module [gpu_row]) ["gromacs"; "namd/2.12"]%string
     = Some "namd/2.12"%string
  /\ outcome (filter_dataframe_for_plotting
                re_search [gromacs_row; namd_row; gpu_row]
                ["hydra"]%string ["gromacs"; "namd/2.12"]%string true true)
     = inl (ModuleMissing "namd/2.12").
Proof.
  split; [reflexivity|]. split; [reflexivity|].
  exact (proj1 (unknown_module_error
                  re_search [gromacs_row; namd_row; gpu_row]
                  ["hydra"]%string ["gromacs"; "namd/2.12"]%string true true
                  [gpu_row] "namd/2.12"%string eq_refl eq_refl)).
Defined.

Lemma filter_idempotent {A} (f : A -> bool) (l : list A) :
  filter f (filter f l) = filter f l.
Proof.
  apply filter_all_true, forallb_forall.
  intros x Hx. apply filter_In in Hx. apply Hx.
Qed.

Lemma filter_commute {A} (f g : A -> bool) (l : list A) :
  filter f (filter g l) = filter g (filter f l).
Proof.
  induction l as [|x l IH]; simpl; [reflexivity|].
  destruct (f x) eqn:Hf, (g x) eqn:Hg; simpl; rewrite ?Hf, ?Hg, IH;
    reflexivity.
Qed.

(** The outcome of a selection without modules. *)
Lemma hosts_step_outcome str_contains df host_name want_gpu want_cpu :
  outcome (filter_dataframe_for_plotting str_contains df host_name []
                                         want_gpu want_cpu)
  = match outcome (select_processing_units df want_gpu want_cpu) with
    | inl e => inl e
    | inr df1 => outcome (select_hosts df1 host_name)
    end.
Proof.
  rewrite filter_outcome.
  destruct (outcome (select_processing_units df want_gpu want_cpu))
    as [e|df1] eqn:H1; [reflexivity|].
  destruct (select_processing_units_value _ _ _ _ H1) as [Hne1 _].
  destruct (outcome (select_hosts df1 host_name)) as [e|df2] eqn:H2;
    [reflexivity|].
  rewrite (select_modules_nil str_contains df2); [reflexivity|].
  exact (select_hosts_value df1 host_name df2 Hne1 H2).
Qed.

(** X5: selecting again changes nothing: when no module is asked for, the
    rows a selection returns are returned as they are by the same selection
    run on them. *)
Theorem selection_is_idempotent :
  forall str_contains df host_name want_gpu want_cpu rows,
    outcome (filter_dataframe_for_plotting str_contains df host_name []
                                           want_gpu want_cpu)
    = inr rows ->
    outcome (filter_dataframe_for_plotting str_contains rows host_name []
                                           want_gpu want_cpu)
    = inr rows.
Proof.
  intros sc df host_name want_gpu want_cpu rows H.
  pose proof (filter_value_nonempty _ _ _ _ _ _ _ H) as Hne.
  rewrite hosts_step_outcome in *.
  rewrite select_processing_units_outcome in *.
  destruct (negb want_gpu && negb want_cpu); [discriminate|].
  set (u := unit_wanted want_gpu want_cpu) in *.
  destruct (empty (filter u df)) eqn:He; [discriminate|].
  rewrite select_hosts_outcome in H. cbn zeta in H.
  destruct (_ <? _)%nat eqn:Hlt in H; [discriminate|].
  injection H as Hrows.
  assert (Hu : filter u rows = rows).
  { destruct host_name; subst rows;
      [apply filter_idempotent|].
    rewrite filter_commute, filter_idempotent. reflexivity. }
  rewrite Hu.
  destruct rows as [|r rows']; [contradiction|]. cbn [empty].
  rewrite select_hosts_outcome. cbn zeta.
  destruct host_name as [|h hs]; [reflexivity|].
  set (hn := h :: hs) in *.
  assert (Hh : filter (fun r0 => isin hn (host r0)) (r :: rows')
               = r :: rows').
  { rewrite <- Hrows. apply filter_idempotent. }
  rewrite Hh. rewrite <- Hrows at 1. rewrite Hlt. reflexivity.
Qed.

Lemma selection_is_idempotent_witness :
  outcome (filter_dataframe_for_plotting
             re_search [gromacs_row; namd_row; gpu_row]
             ["draco"]%string [] true true)
  = inr [gromacs_row; namd_row]
  /\ outcome (filter_dataframe_for_plotting
                re_search [gromacs_row; namd_row]
                ["draco"]%string [] true true)
     = inr [gromacs_row; namd_row].
Proof.
  split; [reflexivity|].
  exact (selection_is_idempotent
           re_search [gromacs_row; namd_row; gpu_row]
           ["draco"]%string true true [gromacs_row; namd_row] eq_refl).
Defined.

Lemma filter_split {A} (f : A -> bool) (l : list A) :
  Permutation (filter f l ++ filter (fun x => negb (f x)) l) l.
Proof.
  induction l as [|x l IH]; simpl; [constructor|].
  destruct (f x); simpl.
  - constructor. exact IH.
  - apply Permutation_sym, Permutation_cons_app, Permutation_sym. exact IH.
Qed.

Lemma found_hosts_mono (f : row -> bool) df host_name :
  (List.length
     (np_unique (map host (filter (fun r => isin host_name (host r))
                                  (filter f df))))
   <= List.length
        (np_unique (map host (filter (fun r => isin host_name (host r)) df))))%nat.
Proof.
  apply NoDup_incl_length; [apply np_unique_NoDup|].
  intros h Hh. apply In_np_unique. apply -> In_np_unique in Hh.
  apply in_map_iff in Hh. destruct Hh as [r [<- Hr]].
  apply in_map. apply filter_In in Hr. destruct Hr as [Hr Hi].
  apply filter_In in Hr. apply filter_In. split; [apply Hr | exact Hi].
Qed.

(** X6: the GPU rows and the CPU rows make the whole: when the selection of
    the GPU rows alone and that of the CPU rows alone both succeed (same
    hosts, no module), the selection of both succeeds as well, and its rows
    are those of the two, each once. *)
Theorem gpu_and_cpu_selections_add_up :
  forall str_contains df host_name on_gpu on_cpu,
    outcome (filter_dataframe_for_plotting str_contains df host_name []
                                           true false) = inr on_gpu ->
    outcome (filter_dataframe_for_plotting str_contains df host_name []
                                           false true) = inr on_cpu ->
    exists both,
      outcome (filter_dataframe_for_plotting str_contains df host_name []
                                             true true) = inr both
      /\ Permutation (on_gpu ++ on_cpu) both
      /\ (forall r, In r both -> In r df)
      /\ (List.length on_gpu + List.length on_cpu = List.length both)%nat.
Proof.
  intros sc df host_name on_gpu on_cpu Hg Hc.
  rewrite hosts_step_outcome in *.
  rewrite select_processing_units_outcome in *.
  cbn [negb andb] in *.
  destruct (empty (filter (unit_wanted true false) df)) eqn:Eg;
    [discriminate|].
  destruct (empty (filter (unit_wanted false true) df)); [discriminate|].
  pose proof (select_hosts_kept _ _ _ Hg) as Kg.
  pose proof (select_hosts_kept _ _ _ Hc) as Kc.
  rewrite select_hosts_outcome in Hg. cbn zeta in Hg.
  destruct (_ <? _)%nat eqn:Lg in Hg; [discriminate|]. clear Hg Hc.
  assert (Hall : filter (unit_wanted true true) df = df)
    by (apply filter_all_true, forallb_forall; reflexivity).
  rewrite Hall.
  destruct df as [|r0 df0] eqn:Edf; [discriminate|]. cbn [empty].
  rewrite <- Edf in *. clear Eg.
  exists (filter (host_wanted host_name) df).
  assert (Hperm : Permutation (on_gpu ++ on_cpu)
                              (filter (host_wanted host_name) df)).
  { subst on_gpu on_cpu.
    rewrite (filter_commute (host_wanted host_name) (unit_wanted true false)).
    rewrite (filter_commute (host_wanted host_name) (unit_wanted false true)).
    apply (filter_split gpu). }
  split.
  - rewrite select_hosts_outcome. cbn zeta.
    pose proof (found_hosts_mono (unit_wanted true false) df host_name) as Hm.
    apply Nat.ltb_ge in Lg.
    destruct (Nat.ltb_spec
                (List.length
                   (np_unique
                      (map host
                         (filter (fun r => isin host_name (host r)) df))))
                (List.length host_name)) as [Hlt|_]; [lia|].
    destruct host_name; [|reflexivity].
    simpl. f_equal. symmetry.
    apply filter_all_true, forallb_forall. reflexivity.
  - split; [exact Hperm|]. split.
    + intros r Hr. apply filter_In in Hr. apply Hr.
    + rewrite <- length_app. apply Permutation_length. exact Hperm.
Qed.

Lemma gpu_and_cpu_selections_add_up_witness :
  outcome (filter_dataframe_for_plotting
             re_search [gromacs_row; gpu_row; namd_row] [] [] true false)
  = inr [gpu_row]
  /\ outcome (filter_dataframe_for_plotting
                re_search [gromacs_row; gpu_row; namd_row] [] [] false true)
     = inr [gromacs_row; namd_row]
  /\ exists both,
      outcome (filter_dataframe_for_plotting
                 re_search [gromacs_row; gpu_row; namd_row] [] [] true true)
      = inr both
      /\ Permutation ([gpu_row] ++ [gromacs_row; namd_row]) both
      /\ (forall r, In r both -> In r [gromacs_row; gpu_row; namd_row])
      /\ (List.length [gpu_row] + List.length [gromacs_row; namd_row]
          = List.length both)%nat.
Proof.
  split; [reflexivity|]. split; [reflexivity|].
  exact (gpu_and_cpu_selections_add_up
           re_search [gromacs_row; gpu_row; namd_row] []
           [gpu_row] [gromacs_row; namd_row] eq_refl eq_refl).
Defined.

(** * Further properties of the grouping *)

Lemma bool_compare_antisym (a b : bool) :
  Bool.compare a b = CompOpp (Bool.compare b a).
Proof. destruct a, b; reflexivity. Qed.

Lemma key_compare_antisym (a b : key) :
  key_compare a b = CompOpp (key_compare b a).
Proof.
  destruct a as [[g1 m1] h1], b as [[g2 m2] h2]. simpl.
  rewrite (bool_compare_antisym g1 g2), (String.compare_antisym m1 m2),
    (String.compare_antisym h1 h2).
  destruct (Bool.compare g2 g1); simpl; try reflexivity.
  destruct (String.compare m2 m1); reflexivity.
Qed.

Lemma bool_compare_trans (a b c : bool) :
  Bool.compare a b = Lt -> Bool.compare b c = Lt -> Bool.compare a c = Lt.
Proof. destruct a, b, c; simpl; congruence. Qed.

Lemma key_compare_trans (a b c : key) :
  key_compare a b = Lt -> key_compare b c = Lt -> key_compare a c = Lt.
Proof.
  destruct a as [[g1 m1] h1], b as [[g2 m2] h2], c as [[g3 m3] h3]. simpl.
  destruct (Bool.compare g1 g2) eqn:G12; try discriminate;
    destruct (Bool.compare g2 g3) eqn:G23; try discriminate;
    try apply bool_compare_eq in G12; try apply bool_compare_eq in G23;
    subst; rewrite ?G12, ?G23; try reflexivity.
  - replace (Bool.compare g3 g3) with Eq by (destruct g3; reflexivity).
    destruct (String.compare m1 m2) eqn:M12; try discriminate;
      destruct (String.compare m2 m3) eqn:M23; try discriminate;
      try apply String.compare_eq_iff in M12;
      try apply String.compare_eq_iff in M23;
      subst; rewrite ?M12, ?M23; try reflexivity.
    + rewrite string_compare_refl. apply string_compare_trans.
    + rewrite (string_compare_trans _ _ _ M12 M23). reflexivity.
  - rewrite (bool_compare_trans _ _ _ G12 G23). reflexivity.
Qed.

Lemma groupby_keys df :
  map fst (groupby df) = sort_unique key_compare (map row_key df).
Proof. unfold groupby. rewrite map_map. simpl. apply map_id. Qed.

(** X7: the groups come in strictly increasing order of their key (gpu,
    module, host), false before true: no key comes twice, the CPU groups
    come before the GPU groups, and the keys are those of the rows. *)
Theorem groups_in_key_order :
  forall df,
    StronglySorted (below key_compare) (map fst (groupby df))
    /\ NoDup (map fst (groupby df))
    /\ (forall k, In k (map fst (groupby df)) <->
                  exists r, In r df /\ row_key r = k).
Proof.
  intros df. rewrite groupby_keys.
  split; [|split].
  - apply sort_unique_sorted.
    + exact key_compare_eq.
    + exact key_compare_antisym.
    + exact key_compare_trans.
  - apply sort_unique_NoDup.
    + exact key_compare_eq.
    + exact key_compare_antisym.
    + exact key_compare_trans.
  - intros k. rewrite (In_sort_unique key_compare key_compare_eq).
    rewrite in_map_iff. split; intros [r [Ha Hb]]; exists r; split; assumption.
Qed.

Lemma groups_in_key_order_witness :
  (exists r, In r [gpu_row; namd_row; gromacs_row]
             /\ row_key r = (true, "gromacs/2018.3", "hydra")%string)
  /\ In (true, "gromacs/2018.3", "hydra")%string
        (map fst (groupby [gpu_row; namd_row; gromacs_row])).
Proof.
  assert (H : exists r, In r [gpu_row; namd_row; gromacs_row]
                        /\ row_key r = (true, "gromacs/2018.3", "hydra")%string)
    by (exists gpu_row; split; [left; reflexivity | reflexivity]).
  split; [exact H|].
  apply (proj2 (proj2 (groups_in_key_order [gpu_row; namd_row; gromacs_row]))).
  exact H.
Defined.

Lemma filter_disjoint_union {A} (p q : A -> bool) (l : list A) :
  (forall x, p x = true -> q x = false) ->
  Permutation (filter p l ++ filter q l) (filter (fun x => p x || q x) l).
Proof.
  intros Hd. induction l as [|x l IH]; simpl; [constructor|].
  destruct (p x) eqn:Hp; simpl.
  - rewrite (Hd x Hp). constructor. exact IH.
  - destruct (q x); simpl; [|exact IH].
    apply Permutation_sym, Permutation_cons_app, Permutation_sym. exact IH.
Qed.

Lemma concat_groups (ks : list key) (df : dataframe) :
  NoDup ks ->
  Permutation
    (List.concat (map (fun k => filter (fun r => key_eqb k (row_key r)) df) ks))
    (filter (fun r => existsb (fun k => key_eqb k (row_key r)) ks) df).
Proof.
  induction 1 as [|k ks Hk Hnd IH]; simpl.
  - assert (E : filter (fun _ : row => false) df = [])
      by (induction df; simpl; trivial).
    rewrite E. constructor.
  - eapply Permutation_trans; [apply Permutation_app_head, IH|].
    apply filter_disjoint_union.
    intros r Hr. apply key_eqb_eq in Hr. subst k.
    destruct (existsb _ ks) eqn:E; [|reflexivity].
    apply existsb_exists in E. destruct E as [k' [Hin Hk']].
    apply key_eqb_eq in Hk'. subst k'. contradiction.
Qed.

Lemma series_partition df : Permutation (List.concat (series df)) df.
Proof.
  unfold series, groupby. rewrite map_map. simpl.
  eapply Permutation_trans.
  - apply concat_groups. apply sort_unique_NoDup.
    + exact key_compare_eq.
    + exact key_compare_antisym.
    + exact key_compare_trans.
  - rewrite filter_all_true; [apply Permutation_refl|].
    apply forallb_forall. intros r Hr. apply existsb_exists.
    exists (row_key r). split.
    + apply (In_sort_unique key_compare key_compare_eq).
      apply in_map. exact Hr.
    + apply key_eqb_eq. reflexivity.
Qed.

(** X8: the series are a partition of the frame: put end to end they hold
    each row of the frame exactly once, and the rows of a series all have the
    key of the series. *)
Theorem series_partition_the_frame :
  forall df,
    Permutation (List.concat (series df)) df
    /\ (List.length (List.concat (series df)) = List.length df)
    /\ (forall k s r, In (k, s) (groupby df) -> In r s -> row_key r = k).
Proof.
  intros df. split; [apply series_partition|].
  split; [apply Permutation_length, series_partition|].
  intros k s r H Hr. apply In_groupby in H. destruct H as [_ ->].
  apply filter_In in Hr. destruct Hr as [_ Hr].
  apply key_eqb_eq in Hr. congruence.
Qed.

Lemma series_partition_the_frame_witness :
  In ((false, "namd/2.12", "draco")%string, [namd_row; namd_row_1])
     (groupby [namd_row; gpu_row; namd_row_1])
  /\ In namd_row_1 [namd_row; namd_row_1]
  /\ row_key namd_row_1 = (false, "namd/2.12", "draco")%string.
Proof.
  assert (H : In ((false, "namd/2.12", "draco")%string, [namd_row; namd_row_1])
                 (groupby [namd_row; gpu_row; namd_row_1]))
    by (vm_compute; left; reflexivity).
  assert (Hr : In namd_row_1 [namd_row; namd_row_1])
    by (right; left; reflexivity).
  split; [exact H|]. split; [exact Hr|].
  exact (proj2 (proj2 (series_partition_the_frame
                         [namd_row; gpu_row; namd_row_1])) _ _ _ H Hr).
Defined.

(** * Further properties of the lines drawn *)

Lemma drawn_measurements plot_cores fit (gb : list (key * dataframe)) :
  flat_map measurements
    (flat_map
       (fun '(k, s) =>
          Line (group_label k)
               (map (fun r => (selection plot_cores r, ns_day r)) s)
          :: (if fit && (1 <? List.length s)%nat
              then [Projection (plot_projection s (selection plot_cores))]
              else []))
       gb)
  = map (fun r => (selection plot_cores r, ns_day r))
        (List.concat (map snd gb)).
Proof.
  induction gb as [|[k s] gb IH]; [reflexivity|].
  cbn [flat_map map snd List.concat]. rewrite map_app, <- IH.
  destruct (fit && (1 <? List.length s)%nat); cbn [flat_map measurements app];
    rewrite ?app_nil_r; reflexivity.
Qed.

Lemma drawn_labels plot_cores fit (gb : list (key * dataframe)) :
  flat_map line_label
    (flat_map
       (fun '(k, s) =>
          Line (group_label k)
               (map (fun r => (selection plot_cores r, ns_day r)) s)
          :: (if fit && (1 <? List.length s)%nat
              then [Projection (plot_projection s (selection plot_cores))]
              else []))
       gb)
  = map (fun g => group_label (fst g)) gb.
Proof.
  induction gb as [|[k s] gb IH]; [reflexivity|].
  cbn [flat_map map fst]. rewrite <- IH.
  destruct (fit && (1 <? List.length s)%nat); reflexivity.
Qed.

Lemma drawn_projections plot_cores fit (gb : list (key * dataframe)) :
  List.length
    (filter is_projection
       (flat_map
          (fun '(k, s) =>
             Line (group_label k)
                  (map (fun r => (selection plot_cores r, ns_day r)) s)
             :: (if fit && (1 <? List.length s)%nat
                 then [Projection (plot_projection s (selection plot_cores))]
                 else []))
          gb))
  = if fit
    then List.length
           (filter (fun s => (1 <? List.length s)%nat) (map snd gb))
    else 0%nat.
Proof.
  induction gb as [|[k s] gb IH]; [destruct fit; reflexivity|].
  cbn [flat_map map snd]. rewrite filter_app, length_app, IH.
  destruct fit; cbn [andb filter is_projection].
  - destruct (1 <? List.length s)%nat; reflexivity.
  - reflexivity.
Qed.

(** X9: every row of the frame is drawn exactly once: the points of the
    labelled lines of [plot_over_group], taken together, are the (x, ns/day)
    pairs of the rows, each once; and there is one labelled line per group,
    in the order of the groups, named host - module on GPUs or CPUs. *)
Theorem every_row_is_drawn_once :
  forall df plot_cores fit,
    let drawn := artists (plot_over_group df plot_cores fit new_axes) in
    Permutation (flat_map measurements drawn)
                (map (fun r => (selection plot_cores r, ns_day r)) df)
    /\ flat_map line_label drawn
       = map (fun g => group_label (fst g)) (groupby df)
    /\ List.length (flat_map line_label drawn)
       = List.length (sort_unique key_compare (map row_key df)).
Proof.
  intros df plot_cores fit drawn. unfold drawn.
  rewrite plot_over_group_artists.
  rewrite drawn_measurements, drawn_labels.
  split; [apply Permutation_map, series_partition|].
  split; [reflexivity|].
  rewrite length_map. unfold groupby. rewrite length_map. reflexivity.
Qed.

(** X10: a projection is drawn for the groups of two rows or more when the
    fit is asked for, and for no group when it is not: the number of
    projections is the number of such groups, or 0. *)
Theorem projections_need_two_rows :
  forall df plot_cores fit,
    List.length
      (filter is_projection
              (artists (plot_over_group df plot_cores fit new_axes)))
    = if fit
      then List.length
             (filter (fun s => (1 <? List.length s)%nat) (series df))
      else 0%nat.
Proof.
  intros df plot_cores fit.
  rewrite plot_over_group_artists. apply drawn_projections.
Qed.

(** * Further properties of the ticks *)

Lemma every_map {A B} (f : A -> B) (k skip : nat) (l : list A) :
  every k skip (map f l) = map f (every k skip l).
Proof.
  revert skip. induction l as [|x l IH]; intros skip; simpl; [reflexivity|].
  destruct skip; simpl; rewrite IH; reflexivity.
Qed.

Lemma every_1 {A} (l : list A) : every 1 0 l = l.
Proof. induction l as [|x l IH]; simpl; [reflexivity | rewrite IH; reflexivity]. Qed.

Lemma every_seq (k : nat) :
  (1 <= k)%nat ->
  forall n a skip,
    every k skip (seq a n)
    = filter (fun x => (skip <=? x - a)%nat
                       && ((x - a - skip) mod k =? 0)%nat)
             (seq a n).
Proof.
  intros Hk. induction n as [|n IH]; intros a skip; [reflexivity|].
  cbn [seq every filter].
  replace (a - a)%nat with 0%nat by lia.
  destruct skip as [|skip].
  - cbn [Nat.leb andb]. rewrite Nat.Div0.mod_0_l. cbn [Nat.eqb].
    f_equal. rewrite IH. apply filter_ext_in.
    intros x Hx. apply in_seq in Hx.
    rewrite Nat.sub_0_r.
    destruct (Nat.leb_spec (k - 1) (x - S a)) as [Hle|Hlt]; cbn [Nat.leb andb].
    + replace (x - a)%nat with ((x - S a - (k - 1)) + 1 * k)%nat by lia.
      rewrite Nat.Div0.mod_add. reflexivity.
    + rewrite (Nat.mod_small (x - a) k) by lia.
      symmetry. apply Nat.eqb_neq. lia.
  - cbn [Nat.leb andb]. rewrite IH. apply filter_ext_in.
    intros x Hx. apply in_seq in Hx.
    replace (x - a - S skip)%nat with (x - S a - skip)%nat by lia.
    f_equal.
    replace (x - a)%nat with (S (x - S a)) by lia. reflexivity.
Qed.

Lemma filter_map_swap {A B} (f : A -> B) (p : B -> bool) (l : list A) :
  filter p (map f l) = map f (filter (fun x => p (f x)) l).
Proof.
  induction l as [|x l IH]; simpl; [reflexivity|].
  destruct (p (f x)); simpl; rewrite IH; reflexivity.
Qed.

(** The run of "Update xticks" per node, up to the slice. *)
Lemma update_xticks_per_node df xtick_step max_nodes :
  column_max (map nodes df) = ret max_nodes ->
  let candidates := map Z.of_nat (seq 1 (Z.to_nat max_nodes)) in
  let step :=
    get_xsteps (Z.of_nat (List.length candidates)) 1 false xtick_step in
  update_xticks df false xtick_step
  = (ticks <- slice_step candidates step ;;
     ret (candidates, step, ticks,
          ((inject_Z 1 - inject_Z 1 * (1 # 2) * inject_Z step)%Q,
           (inject_Z max_nodes + inject_Z 1 * (1 # 2) * inject_Z step)%Q))).
Proof.
  intros Hmax candidates step.
  unfold update_xticks. simpl selection.
  rewrite bind_ret, Hmax, bind_ret.
  rewrite arange_per_node by (apply int64_column_max, Hmax).
  rewrite bind_ret.
  reflexivity.
Qed.

(** X11: when the performance is plotted per node and the step is positive
    (the heuristics always are; a user step when it is above 0), the ticks
    set are the candidates 1, 1+step, 1+2*step, ..., that is the node counts
    [c] up to the largest with [c - 1] a multiple of the step. *)
Theorem xticks_per_node_sampling :
  forall df xtick_step max_nodes,
    column_max (map nodes df) = ret max_nodes ->
    let candidates := map Z.of_nat (seq 1 (Z.to_nat max_nodes)) in
    let step :=
      get_xsteps (Z.of_nat (List.length candidates)) 1 false xtick_step in
    0 < step ->
    exists lim,
      update_xticks df false xtick_step
      = ret (candidates, step,
             filter (fun c => (c - 1) mod step =? 0) candidates, lim).
Proof.
  intros df xtick_step max_nodes Hmax candidates step Hstep.
  rewrite (update_xticks_per_node df xtick_step max_nodes Hmax).
  fold candidates. fold step.
  unfold slice_step.
  destruct (Z.eqb_spec step 0) as [|_]; [lia|].
  destruct (Z.gtb_spec step 0) as [_|]; [|lia].
  rewrite bind_ret. eexists. do 3 f_equal.
  unfold candidates. rewrite every_map, filter_map_swap. f_equal.
  rewrite every_seq by lia.
  apply filter_ext_in. intros x Hx. apply in_seq in Hx.
  cbn [Nat.leb andb]. rewrite Nat.sub_0_r.
  replace (Z.of_nat x - 1) with (Z.of_nat (x - 1)) by lia.
  replace step with (Z.of_nat (Z.to_nat step)) at 2 by lia.
  rewrite <- Nat2Z.inj_mod.
  destruct (Nat.eqb_spec ((x - 1) mod Z.to_nat step) 0) as [E|E];
    destruct (Z.eqb_spec (Z.of_nat ((x - 1) mod Z.to_nat step)) 0);
    try reflexivity; lia.
Qed.

Lemma xticks_per_node_sampling_witness :
  column_max (map nodes [namd_row; namd_row_1; gpu_row]) = ret 2
  /\ 0 < get_xsteps 2 1 false (Some 2)
  /\ exists lim,
      update_xticks [namd_row; namd_row_1; gpu_row] false (Some 2)
      = ret ([1; 2], 2, [1], lim).
Proof.
  split; [reflexivity|]. split; [reflexivity|].
  exact (xticks_per_node_sampling [namd_row; namd_row_1; gpu_row] (Some 2) 2
                                  eq_refl eq_refl).
Defined.

(** X12: with fewer than 18 nodes at most and no step from the user, every
    node count from 1 to the largest gets its tick, and the axis runs from
    0.5 to the largest node count plus 0.5. *)
Theorem few_nodes_all_ticks :
  forall df max_nodes,
    column_max (map nodes df) = ret max_nodes ->
    max_nodes < 18 ->
    let candidates := map Z.of_nat (seq 1 (Z.to_nat max_nodes)) in
    exists lo hi,
      update_xticks df false None = ret (candidates, 1, candidates, (lo, hi))
      /\ (lo == 1 # 2)%Q
      /\ (hi == inject_Z max_nodes + (1 # 2))%Q.
Proof.
  intros df max_nodes Hmax Hlt candidates.
  rewrite (update_xticks_per_node df None max_nodes Hmax).
  fold candidates.
  assert (Hstep : get_xsteps (Z.of_nat (List.length candidates)) 1 false None
                  = 1).
  { rewrite get_xsteps_none. cbn [andb].
    unfold candidates. rewrite length_map, length_seq.
    destruct (Z.geb_spec (Z.of_nat (Z.to_nat max_nodes)) 18); [lia|].
    reflexivity. }
  rewrite Hstep. unfold slice_step. cbn [Z.eqb Z.gtb Z.compare Z.to_nat].
  change (Pos.to_nat 1) with 1%nat.
  rewrite every_1, bind_ret.
  eexists. eexists. split; [reflexivity|].
  change (inject_Z 1) with 1%Q. split; lra.
Qed.

Lemma few_nodes_all_ticks_witness :
  column_max (map nodes [namd_row; namd_row_1; gpu_row]) = ret 2
  /\ 2 < 18
  /\ exists lo hi,
      update_xticks [namd_row; namd_row_1; gpu_row] false None
      = ret ([1; 2], 1, [1; 2], (lo, hi))
      /\ (lo == 1 # 2)%Q
      /\ (hi == inject_Z 2 + (1 # 2))%Q.
Proof.
  split; [reflexivity|]. split; [reflexivity|].
  exact (few_nodes_all_ticks [namd_row; namd_row_1; gpu_row] 2
                             eq_refl eq_refl).
Defined.

Lemma fold_min_le (l : list Z) (x : Z) : fold_left Z.min l x <= x.
Proof.
  revert x. induction l as [|y l IH]; intros x; simpl; [lia|].
  specialize (IH (Z.min x y)). lia.
Qed.

Lemma fold_max_ge (l : list Z) (x : Z) : x <= fold_left Z.max l x.
Proof.
  revert x. induction l as [|y l IH]; intros x; simpl; [lia|].
  specialize (IH (Z.max x y)). lia.
Qed.

Lemma column_min_le_max (col : list Z) (lo hi : Z) :
  column_min col = ret lo -> column_max col = ret hi -> lo <= hi.
Proof.
  destruct col as [|x l]; [discriminate|]. simpl.
  intros Hlo Hhi. injection Hlo as <-. injection Hhi as <-.
  pose proof (fold_min_le l x). pose proof (fold_max_ge l x). lia.
Qed.

Lemma ceil_div_bounds (a b : Z) :
  0 < b -> a <= b * ceil_div a b < a + b.
Proof.
  intros Hb. unfold ceil_div.
  pose proof (Z.mul_div_le (- a) b Hb).
  pose proof (Z.mul_succ_div_gt (- a) b Hb).
  lia.
Qed.

(** X13: when the performance is plotted per core, the smallest core
    count [lo] is above 0 and the largest [hi] has [hi + lo] below 2^53 (so
    that the int64 sum does not wrap and the counts are exact as floats),
    the candidate ticks are the multiples lo, 2*lo, ..., n*lo, where n*lo is
    the first multiple that reaches the largest core count, and the step is
    that of [get_xsteps] on n ticks. *)
Theorem xticks_per_core :
  forall df xtick_step lo hi,
    column_min (map ncores df) = ret lo ->
    column_max (map ncores df) = ret hi ->
    0 < lo ->
    hi + lo < 9007199254740992 ->
    let n := Z.to_nat (ceil_div hi lo) in
    let candidates := map (fun i => lo * Z.of_nat (S i)) (seq 0 n) in
    let step := get_xsteps (Z.of_nat n) lo true xtick_step in
    (1 <= n)%nat
    /\ hi <= lo * Z.of_nat n < hi + lo
    /\ exists ticks xlo xhi,
        update_xticks df true xtick_step
        = ret (candidates, step, ticks, (xlo, xhi))
        /\ slice_step candidates step = ret ticks
        /\ (xlo == inject_Z lo - inject_Z lo * (1 # 2) * inject_Z step)%Q
        /\ (xhi == inject_Z hi + inject_Z lo * (1 # 2) * inject_Z step)%Q.
Proof.
  intros df xtick_step lo hi Hlo Hhi Hpos Hfit n candidates step.
  pose proof (column_min_le_max _ _ _ Hlo Hhi) as Hle.
  pose proof (ceil_div_bounds hi lo Hpos) as Hb.
  assert (Hn : Z.of_nat n = ceil_div hi lo) by (unfold n; nia).
  split; [nia|]. split; [rewrite Hn; exact Hb|].
  set (d := forallb int64 (map ncores df)).
  assert (Hstop : fit d (hi + lo) = hi + lo)
    by (apply fit_id, int64_range; lia).
  assert (Hrange : fit d (hi + lo - lo) = hi)
    by (replace (hi + lo - lo) with hi by lia; apply fit_id, int64_range; lia).
  assert (Hc : map (fun i => fit d (lo + Z.of_nat i * lo))
                   (seq 0 (Z.to_nat (ceil_div hi lo)))
               = candidates).
  { fold n. unfold candidates. apply map_ext_in.
    intros i Hi. apply in_seq in Hi.
    rewrite fit_id; [lia|]. apply int64_range. nia. }
  destruct (slice_step_value candidates step) as [ticks Ht].
  { apply get_xsteps_nonzero. }
  exists ticks. eexists. eexists.
  split; [|split; [exact Ht | split; reflexivity]].
  unfold update_xticks. simpl selection. fold d.
  rewrite Hlo, bind_ret, Hhi, bind_ret.
  unfold np_arange.
  destruct (Z.eqb_spec lo 0) as [|_]; [lia|].
  rewrite Hstop, Hrange, Hc, bind_ret.
  replace (Z.of_nat (List.length candidates)) with (Z.of_nat n)
    by (unfold candidates; rewrite length_map, length_seq; reflexivity).
  fold step. rewrite Ht, bind_ret. reflexivity.
Qed.

Lemma xticks_per_core_witness :
  column_min (map ncores [namd_row; gpu_row; namd_row_1]) = ret 32
  /\ column_max (map ncores [namd_row; gpu_row; namd_row_1]) = ret 64
  /\ 0 < 32
  /\ 64 + 32 < 9007199254740992
  /\ exists ticks xlo xhi,
      update_xticks [namd_row; gpu_row; namd_row_1] true None
      = ret ([32; 64], 1, ticks, (xlo, xhi))
      /\ slice_step [32; 64] 1 = ret ticks
      /\ (xlo == inject_Z 32 - inject_Z 32 * (1 # 2) * inject_Z 1)%Q
      /\ (xhi == inject_Z 64 + inject_Z 32 * (1 # 2) * inject_Z 1)%Q.
Proof.
  split; [reflexivity|]. split; [reflexivity|]. split; [reflexivity|].
  split; [reflexivity|].
  exact (proj2 (proj2 (xticks_per_core [namd_row; gpu_row; namd_row_1] None
                                       32 64 eq_refl eq_refl eq_refl
                                       eq_refl))).
Defined.

(** The sum and the grid per core as int64 has them: with core counts of
    6e18 and 9e18 the sum wraps, and so does the second tick. *)
Example xticks_per_core_wrap :
  outcome
    (update_xticks
       [mkRow "draco" "namd/2.12" false 1 6000000000000000000 (12 # 1);
        mkRow "draco" "namd/2.12" false 2 9000000000000000000 (20 # 1)]
       true (Some 1))
  = inr ([6000000000000000000; -6446744073709551616], 1,
         [6000000000000000000; -6446744073709551616],
         ((inject_Z 6000000000000000000
           - inject_Z 6000000000000000000 * (1 # 2) * inject_Z 1)%Q,
          (inject_Z 9000000000000000000
           + inject_Z 6000000000000000000 * (1 # 2) * inject_Z 1)%Q)).
Proof. vm_compute. reflexivity. Qed.

(** X14: a frame whose smallest core count is 0 cannot be plotted per core:
    the candidate ticks are asked of [np.arange] with a step of 0, which
    raises. *)
Theorem xticks_per_core_zero_step :
  forall df xtick_step,
    column_min (map ncores df) = ret 0 ->
    update_xticks df true xtick_step = raise ZeroStep.
Proof.
  intros df xtick_step Hlo.
  destruct df as [|r df]; [discriminate|].
  unfold update_xticks. simpl selection. rewrite Hlo, bind_ret.
  reflexivity.
Qed.

Lemma xticks_per_core_zero_step_witness :
  column_min (map ncores [mkRow "draco" "namd/2.12" false 1 0 (12 # 1);
                          namd_row]) = ret 0
  /\ update_xticks [mkRow "draco" "namd/2.12" false 1 0 (12 # 1); namd_row]
                   true None
     = raise ZeroStep.
Proof.
  split; [reflexivity|].
  exact (xticks_per_core_zero_step
           [mkRow "draco" "namd/2.12" false 1 0 (12 # 1); namd_row] None
           eq_refl).
Defined.

Local Open Scope Q_scope.

(** The run of "Update yticks" on a frame whose largest performance makes
    an interval of 1 or more. *)
Lemma update_yticks_run df max_y :
  column_max_float (map ns_day df) = ret max_y ->
  9 <= max_y ->
  let interval := yticks_steps max_y in
  let top := max_y + max_y * (25 # 100) in
  update_yticks df
  = ret (interval,
         map (fun i => 0 + inject_Z (Z.of_nat i) * inject_Z interval)
             (seq 0 (Z.to_nat (Qceiling ((top - 0) / inject_Z interval)))),
         top).
Proof.
  intros Hmax H9 interval top.
  pose proof (yticks_steps_ge_1 max_y H9) as H1. fold interval in H1.
  assert (Hpos : 0 < inject_Z interval).
  { change 0 with (inject_Z 0). rewrite <- Zlt_Qlt. lia. }
  unfold update_yticks. rewrite Hmax, bind_ret.
  destruct (Qeq_bool max_y 0) eqn:E0.
  { apply Qeq_bool_iff in E0. lra. }
  fold interval. fold top. unfold np_arange_float.
  destruct (Qeq_bool (inject_Z interval) 0) eqn:Ei.
  { apply Qeq_bool_iff in Ei. lra. }
  rewrite bind_ret. reflexivity.
Qed.

(** X15: the y axis is never crowded nor bare: when the largest performance
    is 9 ns/day or more, between 12 and 24 ticks are set on it. *)
Theorem yticks_between_12_and_24 :
  forall df max_y,
    column_max_float (map ns_day df) = ret max_y ->
    9 <= max_y ->
    exists interval ticks top,
      update_yticks df = ret (interval, ticks, top)
      /\ (12 <= List.length ticks <= 24)%nat.
Proof.
  intros df max_y Hmax H9.
  rewrite (update_yticks_run df max_y Hmax H9).
  eexists. eexists. eexists. split; [reflexivity|].
  rewrite length_map, length_seq.
  set (interval := yticks_steps max_y).
  set (top := max_y + max_y * (25 # 100)).
  set (x := (top - 0) / inject_Z interval).
  pose proof (yticks_steps_ge_1 max_y H9) as H1. fold interval in H1.
  assert (H0 : 0 <= max_y) by lra.
  pose proof (yticks_steps_le max_y H0) as Hle. fold interval in Hle.
  assert (Hgt : (max_y + 1) / 10 < inject_Z interval + 1).
  { unfold interval. rewrite yticks_steps_floor by exact H0.
    pose proof (Qlt_floor ((max_y + 1) / 10)) as Hf.
    rewrite inject_Z_plus in Hf. exact Hf. }
  assert (Hk : 1 <= inject_Z interval).
  { change 1 with (inject_Z 1). rewrite <- Zle_Qle. exact H1. }
  assert (Hle' : 10 * inject_Z interval <= max_y + 1).
  { apply (Qmult_le_r _ _ (/ 10)); [reflexivity|].
    setoid_replace (10 * inject_Z interval * / 10) with (inject_Z interval)
      by field.
    exact Hle. }
  assert (Hgt' : max_y + 1 < 10 * (inject_Z interval + 1)).
  { apply (Qmult_lt_r _ _ (/ 10)); [reflexivity|].
    setoid_replace (10 * (inject_Z interval + 1) * / 10)
      with (inject_Z interval + 1) by field.
    exact Hgt. }
  assert (Hlow : 11 < x).
  { unfold x. apply Qlt_shift_div_l; [lra|]. unfold top. lra. }
  assert (Hup : x < 24).
  { unfold x. apply Qlt_shift_div_r; [lra|]. unfold top. lra. }
  pose proof (Qle_ceiling x) as Hc1.
  pose proof (Qceiling_lt x) as Hc2.
  assert (Ha : (11 < Qceiling x)%Z).
  { rewrite Zlt_Qlt. change (inject_Z 11) with 11. lra. }
  assert (Hb : (Qceiling x - 1 < 24)%Z).
  { rewrite Zlt_Qlt. change (inject_Z 24) with 24. lra. }
  lia.
Qed.

Lemma yticks_between_12_and_24_witness :
  column_max_float (map ns_day [gromacs_row; namd_row]) = ret (98 # 1)
  /\ 9 <= 98 # 1
  /\ exists interval ticks top,
      update_yticks [gromacs_row; namd_row] = ret (interval, ticks, top)
      /\ (12 <= List.length ticks <= 24)%nat.
Proof.
  split; [reflexivity|]. split; [vm_compute; discriminate|].
  exact (yticks_between_12_and_24 [gromacs_row; namd_row] (98 # 1) eq_refl
                                  ltac:(vm_compute; discriminate)).
Defined.

(** X16: frames of slow systems cannot be plotted: when the largest
    performance is below 9 ns/day the interval of the y ticks is 0 and
    [np.arange] raises; when it is 0 the interval is taken of a Python
    float, which has no [astype]. *)
Theorem yticks_fail_below_9 :
  forall df max_y,
    column_max_float (map ns_day df) = ret max_y ->
    0 <= max_y ->
    max_y < 9 ->
    yticks_steps max_y = 0%Z
    /\ update_yticks df
       = raise (if Qeq_bool max_y 0 then NoAstype else ZeroStep).
Proof.
  intros df max_y Hmax H0 H9.
  assert (Hs : yticks_steps max_y = 0%Z).
  { rewrite yticks_steps_floor by exact H0.
    set (x := (max_y + 1) / 10).
    assert (Hx0 : 0 <= x) by (unfold x; apply Qle_shift_div_l; lra).
    assert (Hx1 : x < 1) by (unfold x; apply Qlt_shift_div_r; lra).
    pose proof (Qfloor_le x) as Hf.
    pose proof (Qfloor_resp_le 0 x Hx0) as Hg.
    change (Qfloor 0) with 0%Z in Hg.
    assert (Hh : (Qfloor x < 1)%Z).
    { rewrite Zlt_Qlt. change (inject_Z 1) with 1. lra. }
    lia. }
  split; [exact Hs|].
  unfold update_yticks. rewrite Hmax, bind_ret.
  destruct (Qeq_bool max_y 0); [reflexivity|].
  rewrite Hs. reflexivity.
Qed.

Lemma yticks_fail_below_9_witness :
  column_max_float (map ns_day [slow_row; slow_row]) = ret (5 # 1)
  /\ 0 <= 5 # 1
  /\ 5 # 1 < 9
  /\ update_yticks [slow_row; slow_row] = raise ZeroStep.
Proof.
  split; [reflexivity|]. split; [vm_compute; discriminate|].
  split; [reflexivity|].
  exact (proj2 (yticks_fail_below_9 [slow_row; slow_row] (5 # 1) eq_refl
                                    ltac:(vm_compute; discriminate)
                                    eq_refl)).
Defined.

(** * Properties of the name of the image *)

Local Open Scope string_scope.

Lemma endswith_app (s suffix : string) : endswith (s ++ suffix) suffix = true.
Proof.
  induction s as [|c s IH]; simpl.
  - destruct suffix; simpl; rewrite ?Ascii.eqb_refl, ?String.eqb_refl; reflexivity.
  - rewrite IH. apply orb_true_r.
Qed.

Lemma before_first_dot_no_dot (c a b : string) :
  before_first_dot c <> a ++ String "." b.
Proof.
  revert a. induction c as [|ch c IH]; intros a; simpl.
  - destruct a; discriminate.
  - destruct (Ascii.eqb_spec ch ".") as [E|E].
    + destruct a; discriminate.
    + destruct a as [|x a]; simpl; intros H; injection H as H1 H2.
      * contradiction.
      * exact (IH a H2).
Qed.

Lemma before_first_dot_split (c : string) :
  c = before_first_dot c
  \/ exists rest, c = before_first_dot c ++ String "." rest.
Proof.
  induction c as [|ch c IH]; simpl; [left; reflexivity|].
  destruct (Ascii.eqb_spec ch ".") as [E|E].
  - right. exists c. subst ch. reflexivity.
  - destruct IH as [IH | [rest IH]].
    + left. f_equal. exact IH.
    + right. exists rest. simpl. f_equal. exact IH.
Qed.

Lemma prefix_app (s t : string) : String.prefix s (s ++ t) = true.
Proof.
  induction s as [|a s IH]; simpl; [destruct t; reflexivity|].
  destruct (Ascii.ascii_dec a a); [exact IH | contradiction].
Qed.

Lemma prefix_refl (s : string) : String.prefix s s = true.
Proof.
  induction s as [|a s IH]; simpl; [reflexivity|].
  destruct (Ascii.ascii_dec a a); [exact IH | contradiction].
Qed.

(** X17: a name given with [--output-name] is kept: it is saved as it is
    when it ends with a dot and the format, with them appended otherwise; the
    saved name always ends with them, and giving the saved name instead of
    the name changes nothing. *)
Theorem given_name_gets_its_extension :
  forall generate_output_name csv name output_format,
    let saved :=
      saved_name generate_output_name csv (Some name) output_format in
    saved = (if endswith name ("." ++ output_format) then name
             else name ++ "." ++ output_format)
    /\ endswith saved ("." ++ output_format) = true
    /\ String.prefix name saved = true
    /\ saved_name generate_output_name csv (Some saved) output_format = saved.
Proof.
  intros gen csv name fmt saved. unfold saved, saved_name, with_extension.
  destruct (endswith name ("." ++ fmt)) eqn:E; cbn [negb].
  - rewrite E. cbn [negb].
    split; [reflexivity|]. split; [reflexivity|].
    split; [apply prefix_refl | reflexivity].
  - rewrite (endswith_app name ("." ++ fmt)). cbn [negb].
    split; [reflexivity|].
    split; [reflexivity|].
    split; [apply prefix_app | reflexivity].
Qed.

(** X18: without [--output-name], one CSV file names the image: what comes
    before the first dot of its name (no dot is left in it; nothing of it
    when the name starts with a dot, as in ./runs.csv), a dot and the format.
    With several files the name is the generated one. *)
Theorem csv_name_up_to_first_dot :
  forall generate_output_name c output_format,
    let stem := before_first_dot c in
    saved_name generate_output_name [c] None output_format
    = stem ++ "." ++ output_format
    /\ (c = stem \/ exists rest, c = stem ++ String "." rest)
    /\ (forall a b, stem <> a ++ String "." b)
    /\ (forall rest, before_first_dot (String "." rest) = "")
    /\ (forall c' more,
           saved_name generate_output_name (c :: c' :: more) None
                      output_format
           = generate_output_name output_format).
Proof.
  intros gen c fmt stem.
  split; [reflexivity|].
  split; [apply before_first_dot_split|].
  split; [apply before_first_dot_no_dot|].
  split; reflexivity.
Qed.

(** * Properties of [plot] as a whole *)

Local Open Scope Q_scope.

(** X19: a selection that fails is the end of [plot]: the run has the notes
    and the error of the selection, and nothing is drawn. *)
Theorem plot_stops_at_a_selection_error :
  forall str_contains df template module_name want_gpu want_cpu
         plot_cores fit xtick_step watermark e,
    outcome (filter_dataframe_for_plotting str_contains df template
                                           module_name want_gpu want_cpu)
    = inl e ->
    plot str_contains df template module_name want_gpu want_cpu
         plot_cores fit xtick_step watermark
    = (notes (filter_dataframe_for_plotting str_contains df template
                                            module_name want_gpu want_cpu),
       inl e).
Proof.
  intros sc df template module_name want_gpu want_cpu plot_cores fit
         xtick_step watermark e H.
  unfold plot.
  destruct (filter_dataframe_for_plotting sc df template module_name
                                          want_gpu want_cpu) as [l [e'|rows]];
    unfold outcome in H; cbn [snd] in H; [|discriminate].
  injection H as ->. reflexivity.
Qed.

Lemma plot_stops_at_a_selection_error_witness :
  outcome (filter_dataframe_for_plotting re_search [gromacs_row; namd_row]
                                         ["ghost"]%string [] true true)
  = inl (HostsNotFound ["draco"]%string)
  /\ plot re_search [gromacs_row; namd_row] ["ghost"]%string [] true true
          false true None true
     = ([PlottingGpuAndCpu], inl (HostsNotFound ["draco"]%string)).
Proof.
  split; [reflexivity|].
  exact (plot_stops_at_a_selection_error
           re_search [gromacs_row; namd_row] ["ghost"]%string [] true true
           false true None true _ eq_refl).
Defined.

Lemma plot_over_group_texts df plot_cores fit ax :
  texts (plot_over_group df plot_cores fit ax) = texts ax.
Proof.
  unfold plot_over_group. cbn [set_labels texts].
  generalize (groupby df). intros gb. revert ax.
  induction gb as [|[k s] gb IH]; intros ax; cbn [fold_left]; [reflexivity|].
  rewrite IH. unfold plot_line.
  destruct (fit && (1 <? List.length s)%nat); reflexivity.
Qed.

(** X20: per node, [plot] succeeds whenever the selection does and the
    largest performance selected is 9 ns/day or more: up to the saving of
    the figure it writes the notes of the selection only, draws the lines of [plot_over_group] on the selected
    rows, names the axes, sets ticks and limits on both, the y axis from 0
    to 1.25 times the largest performance, and puts the watermark when it is
    asked for. *)
Theorem plot_per_node_succeeds :
  forall str_contains df template module_name want_gpu want_cpu
         fit xtick_step watermark rows max_y,
    outcome (filter_dataframe_for_plotting str_contains df template
                                           module_name want_gpu want_cpu)
    = inr rows ->
    column_max_float (map ns_day rows) = ret max_y ->
    9 <= max_y ->
    exists ax xt xl yt,
      plot str_contains df template module_name want_gpu want_cpu
           false fit xtick_step watermark
      = (notes (filter_dataframe_for_plotting str_contains df template
                                              module_name want_gpu want_cpu),
         inr ax)
      /\ artists ax = artists (plot_over_group rows false fit new_axes)
      /\ xlabel ax = "Number of nodes"%string
      /\ ylabel ax = "Performance [ns/day]"%string
      /\ xticks ax = Some xt
      /\ xlim ax = Some xl
      /\ yticks ax = Some yt
      /\ ylim ax = Some (0, max_y + max_y * (25 # 100))
      /\ texts ax = (if watermark then ["MDBenchmark"%string] else []).
Proof.
  intros sc df template module_name want_gpu want_cpu fit xtick_step
         watermark rows max_y Hsel Hmax H9.
  pose proof (filter_value_nonempty _ _ _ _ _ _ _ Hsel) as Hne.
  destruct (column_max_value rows Hne) as [m Hm].
  pose proof (update_xticks_per_node rows xtick_step m Hm) as Hx.
  cbn zeta in Hx.
  destruct (slice_step_value
              (map Z.of_nat (seq 1 (Z.to_nat m)))
              (get_xsteps
                 (Z.of_nat (List.length (map Z.of_nat (seq 1 (Z.to_nat m)))))
                 1 false xtick_step))
    as [ticks Ht]; [apply get_xsteps_nonzero|].
  rewrite Ht, bind_ret in Hx.
  pose proof (update_yticks_run rows max_y Hmax H9) as Hy. cbn zeta in Hy.
  unfold plot.
  destruct (filter_dataframe_for_plotting sc df template module_name
                                          want_gpu want_cpu) as [l [e|rows']];
    unfold outcome in Hsel; cbn [snd] in Hsel; [discriminate|].
  injection Hsel as ->.
  unfold bind at 1. rewrite Hx, bind_ret, Hy, bind_ret.
  unfold ret, notes. cbn [fst]. rewrite app_nil_r.
  destruct watermark;
    (eexists; eexists; eexists; eexists;
     split; [reflexivity|];
     repeat (split; [reflexivity|]);
     cbn [texts ax_text set_yaxis set_xaxis];
     rewrite plot_over_group_texts; reflexivity).
Qed.

Lemma plot_per_node_succeeds_witness :
  outcome (filter_dataframe_for_plotting re_search
             [namd_row_1; namd_row; gpu_row] ["draco"]%string [] true true)
  = inr [namd_row_1; namd_row]
  /\ column_max_float (map ns_day [namd_row_1; namd_row]) = ret (12 # 1)
  /\ 9 <= 12 # 1
  /\ exists ax xt xl yt,
      plot re_search [namd_row_1; namd_row; gpu_row] ["draco"]%string []
           true true false true None true
      = (notes (filter_dataframe_for_plotting re_search
                  [namd_row_1; namd_row; gpu_row] ["draco"]%string []
                  true true),
         inr ax)
      /\ artists ax
         = artists (plot_over_group [namd_row_1; namd_row] false true new_axes)
      /\ xlabel ax = "Number of nodes"%string
      /\ ylabel ax = "Performance [ns/day]"%string
      /\ xticks ax = Some xt
      /\ xlim ax = Some xl
      /\ yticks ax = Some yt
      /\ ylim ax = Some (0, (12 # 1) + (12 # 1) * (25 # 100))
      /\ texts ax = ["MDBenchmark"%string].
Proof.
  split; [reflexivity|]. split; [reflexivity|].
  split; [vm_compute; discriminate|].
  exact (plot_per_node_succeeds
           re_search [namd_row_1; namd_row; gpu_row] ["draco"]%string []
           true true true None true [namd_row_1; namd_row] (12 # 1)
           eq_refl eq_refl ltac:(vm_compute; discriminate)).
Defined.

(** X21: benchmarks of slow systems cannot be plotted per node: when the
    selection succeeds and the largest performance selected is below 9
    ns/day, [plot] ends with the exception of the y ticks, after the notes of
    the selection. *)
Theorem plot_per_node_fails_below_9 :
  forall str_contains df template module_name want_gpu want_cpu
         fit xtick_step watermark rows max_y,
    outcome (filter_dataframe_for_plotting str_contains df template
                                           module_name want_gpu want_cpu)
    = inr rows ->
    column_max_float (map ns_day rows) = ret max_y ->
    0 <= max_y ->
    max_y < 9 ->
    plot str_contains df template module_name want_gpu want_cpu
         false fit xtick_step watermark
    = (notes (filter_dataframe_for_plotting str_contains df template
                                            module_name want_gpu want_cpu),
       inl (if Qeq_bool max_y 0 then NoAstype else ZeroStep)).
Proof.
  intros sc df template module_name want_gpu want_cpu fit xtick_step
         watermark rows max_y Hsel Hmax H0 H9.
  pose proof (filter_value_nonempty _ _ _ _ _ _ _ Hsel) as Hne.
  destruct (column_max_value rows Hne) as [m Hm].
  pose proof (update_xticks_per_node rows xtick_step m Hm) as Hx.
  cbn zeta in Hx.
  destruct (slice_step_value
              (map Z.of_nat (seq 1 (Z.to_nat m)))
              (get_xsteps
                 (Z.of_nat (List.length (map Z.of_nat (seq 1 (Z.to_nat m)))))
                 1 false xtick_step))
    as [ticks Ht]; [apply get_xsteps_nonzero|].
  rewrite Ht, bind_ret in Hx.
  assert (Hy : update_yticks rows
               = raise (if Qeq_bool max_y 0 then NoAstype else ZeroStep)).
  { assert (Hs : yticks_steps max_y = 0%Z).
    { rewrite yticks_steps_floor by exact H0.
      set (x := (max_y + 1) / 10).
      assert (Hx0 : 0 <= x) by (unfold x; apply Qle_shift_div_l; lra).
      assert (Hx1 : x < 1) by (unfold x; apply Qlt_shift_div_r; lra).
      pose proof (Qfloor_le x) as Hf.
      pose proof (Qfloor_resp_le 0 x Hx0) as Hg.
      change (Qfloor 0) with 0%Z in Hg.
      assert (Hh : (Qfloor x < 1)%Z).
      { rewrite Zlt_Qlt. change (inject_Z 1) with 1. lra. }
      lia. }
    unfold update_yticks. rewrite Hmax, bind_ret.
    destruct (Qeq_bool max_y 0); [reflexivity|].
    rewrite Hs. reflexivity. }
  unfold plot.
  destruct (filter_dataframe_for_plotting sc df template module_name
                                          want_gpu want_cpu) as [l [e|rows']];
    unfold outcome in Hsel; cbn [snd] in Hsel; [discriminate|].
  injection Hsel as ->.
  unfold bind at 1. rewrite Hx, bind_ret, Hy.
  unfold raise, bind, notes. cbn [fst]. rewrite app_nil_r. reflexivity.
Qed.

Lemma plot_per_node_fails_below_9_witness :
  outcome (filter_dataframe_for_plotting re_search [slow_row; gpu_row]
                                         ["draco"]%string [] true true)
  = inr [slow_row]
  /\ column_max_float (map ns_day [slow_row]) = ret (5 # 1)
  /\ 0 <= 5 # 1
  /\ 5 # 1 < 9
  /\ plot re_search [slow_row; gpu_row] ["draco"]%string [] true true
          false true None true
     = ([PlottingGpuAndCpu; PlottingHosts ["draco"%string]; PlottingAllModules],
        inl ZeroStep).
Proof.
  split; [reflexivity|]. split; [reflexivity|].
  split; [vm_compute; discriminate|]. split; [reflexivity|].
  exact (plot_per_node_fails_below_9
           re_search [slow_row; gpu_row] ["draco"]%string [] true true
           true None true [slow_row] (5 # 1)
           eq_refl eq_refl ltac:(vm_compute; discriminate) eq_refl).
Defined.

(** * The step and the limits of the axes *)

Local Open Scope Z_scope.

(** X22: the step of the x ticks is never 0, so the slice [xticks[::step]]
    never raises; the heuristics give 1, 2 or 3, and per node 1 or 2 whatever
    the smallest x; a user step other than 0 is returned as it is, and a user
    step of 0 leaves the heuristics in place. *)
Theorem get_xsteps_range :
  forall size min_x plot_cores,
    1 <= get_xsteps size min_x plot_cores None <= 3
    /\ get_xsteps size min_x false None = (if size >=? 18 then 2 else 1)
    /\ (forall xtick_step,
           get_xsteps size min_x plot_cores xtick_step <> 0)
    /\ (forall s,
           get_xsteps size min_x plot_cores (Some s)
           = if s =? 0 then get_xsteps size min_x plot_cores None else s)
    /\ (forall A (xs : list A) xtick_step,
           exists ticks,
             slice_step xs (get_xsteps size min_x plot_cores xtick_step)
             = ret ticks).
Proof.
  intros size min_x plot_cores.
  split.
  { rewrite get_xsteps_none.
    destruct (plot_cores && _); [lia|]. destruct (size >=? 18); lia. }
  split; [reflexivity|].
  split; [intros; apply get_xsteps_nonzero|].
  split.
  { intros s. destruct (Z.eqb_spec s 0) as [->|Hs].
    - reflexivity.
    - apply get_xsteps_user. exact Hs. }
  intros A xs xtick_step. apply slice_step_value, get_xsteps_nonzero.
Qed.

Lemma column_max_ge (col : list Z) (m x : Z) :
  column_max col = ret m -> In x col -> x <= m.
Proof.
  destruct col as [|y l]; [discriminate|]. simpl.
  intros H. injection H as <-. revert y.
  induction l as [|z l IH]; intros y [<- | Hin]; simpl.
  - lia.
  - contradiction.
  - pose proof (fold_max_ge l (Z.max y z)). lia.
  - destruct Hin as [<- | Hin].
    + pose proof (fold_max_ge l (Z.max y z)). lia.
    + apply (IH (Z.max y z)). right. exact Hin.
Qed.

(** X23: per node and with a positive step, no measurement is cut off by
    the limits of the x axis: every row with a node count of 1 or more lies
    strictly between them. *)
Theorem x_limits_contain_the_rows :
  forall df xtick_step max_nodes,
    column_max (map nodes df) = ret max_nodes ->
    let candidates := map Z.of_nat (seq 1 (Z.to_nat max_nodes)) in
    let step :=
      get_xsteps (Z.of_nat (List.length candidates)) 1 false xtick_step in
    0 < step ->
    exists ticks lo hi,
      update_xticks df false xtick_step
      = ret (candidates, step, ticks, (lo, hi))
      /\ forall r, In r df -> 1 <= nodes r ->
                   (lo < inject_Z (nodes r) < hi)%Q.
Proof.
  intros df xtick_step max_nodes Hmax candidates step Hstep.
  rewrite (update_xticks_per_node df xtick_step max_nodes Hmax).
  fold candidates. fold step.
  destruct (slice_step_value candidates step) as [ticks Ht]; [lia|].
  rewrite Ht, bind_ret.
  eexists. eexists. eexists. split; [reflexivity|].
  intros r Hr H1.
  assert (Hle : nodes r <= max_nodes).
  { apply (column_max_ge (map nodes df)); [exact Hmax|].
    apply in_map. exact Hr. }
  assert (Hs : (0 < inject_Z step)%Q).
  { change 0%Q with (inject_Z 0). rewrite <- Zlt_Qlt. exact Hstep. }
  assert (Ha : (inject_Z 1 <= inject_Z (nodes r))%Q)
    by (rewrite <- Zle_Qle; exact H1).
  assert (Hb : (inject_Z (nodes r) <= inject_Z max_nodes)%Q)
    by (rewrite <- Zle_Qle; exact Hle).
  change (inject_Z 1) with 1%Q in *.
  split; lra.
Qed.

Lemma x_limits_contain_the_rows_witness :
  column_max (map nodes [namd_row; namd_row_1]) = ret 2
  /\ 0 < get_xsteps 2 1 false None
  /\ exists ticks lo hi,
      update_xticks [namd_row; namd_row_1] false None
      = ret ([1; 2], 1, ticks, (lo, hi))
      /\ forall r, In r [namd_row; namd_row_1] -> 1 <= nodes r ->
                   (lo < inject_Z (nodes r) < hi)%Q.
Proof.
  split; [reflexivity|]. split; [reflexivity|].
  exact (x_limits_contain_the_rows [namd_row; namd_row_1] None 2
                                   eq_refl eq_refl).
Defined.

Local Open Scope Q_scope.

Lemma Qmax_l (a b : Q) : a <= Qmax a b.
Proof.
  unfold Qmax. destruct (Qle_bool a b) eqn:E.
  - apply Qle_bool_iff. exact E.
  - apply Qle_refl.
Qed.

Lemma Qmax_r (a b : Q) : b <= Qmax a b.
Proof.
  unfold Qmax. destruct (Qle_bool a b) eqn:E.
  - apply Qle_refl.
  - destruct (Qlt_le_dec b a) as [H|H].
    + apply Qlt_le_weak. exact H.
    + apply Qle_bool_iff in H. congruence.
Qed.

Lemma fold_Qmax_ge (l : list Q) (x : Q) : x <= fold_left Qmax l x.
Proof.
  revert x. induction l as [|y l IH]; intros x; simpl; [apply Qle_refl|].
  eapply Qle_trans; [apply (Qmax_l x y) | apply IH].
Qed.

Lemma column_max_float_ge (col : list Q) (m x : Q) :
  column_max_float col = ret m -> In x col -> x <= m.
Proof.
  destruct col as [|y l]; [discriminate|]. simpl.
  intros H. injection H as <-. revert y.
  induction l as [|z l IH]; intros y [E | Hin]; simpl.
  - subst y. apply Qle_refl.
  - contradiction.
  - subst y. eapply Qle_trans; [apply (Qmax_l x z) | apply fold_Qmax_ge].
  - destruct Hin as [E | Hin].
    + subst z. eapply Qle_trans; [apply (Qmax_r y x) | apply fold_Qmax_ge].
    + apply (IH (Qmax y z)). right. exact Hin.
Qed.

(** X24: when the largest performance is 9 ns/day or more, no measurement
    is cut off by the limit of the y axis: every performance is at most the
    largest one, which is strictly below the limit, and the last tick is
    below the limit as well. *)
Theorem y_limit_contains_the_rows :
  forall df max_y,
    column_max_float (map ns_day df) = ret max_y ->
    9 <= max_y ->
    exists interval ticks top,
      update_yticks df = ret (interval, ticks, top)
      /\ max_y < top
      /\ (forall r, In r df -> ns_day r <= max_y)
      /\ (forall t, In t ticks -> t < top).
Proof.
  intros df max_y Hmax H9.
  rewrite (update_yticks_run df max_y Hmax H9).
  eexists. eexists. eexists. split; [reflexivity|].
  split; [lra|]. split.
  { intros r Hr. apply (column_max_float_ge (map ns_day df)); [exact Hmax|].
    apply in_map. exact Hr. }
  intros t Ht. apply in_map_iff in Ht. destruct Ht as [i [<- Hi]].
  apply in_seq in Hi.
  set (interval := yticks_steps max_y) in *.
  set (top := max_y + max_y * (25 # 100)) in *.
  set (x := (top - 0) / inject_Z interval) in *.
  pose proof (yticks_steps_ge_1 max_y H9) as H1. fold interval in H1.
  assert (Hpos : 0 < inject_Z interval).
  { change 0 with (inject_Z 0). rewrite <- Zlt_Qlt. lia. }
  assert (Hx0 : 0 < x).
  { unfold x. apply Qlt_shift_div_l; [exact Hpos|]. unfold top. lra. }
  pose proof (Qle_ceiling x) as Hc.
  assert (Hcpos : (0 < Qceiling x)%Z).
  { rewrite Zlt_Qlt. change (inject_Z 0) with 0. lra. }
  assert (Hi' : (Z.of_nat i <= Qceiling x - 1)%Z) by lia.
  rewrite Zle_Qle in Hi'.
  pose proof (Qceiling_lt x) as Hlt.
  assert (Hix : inject_Z (Z.of_nat i) < x) by lra.
  unfold x in Hix.
  apply (Qmult_lt_compat_r _ _ (inject_Z interval)) in Hix; [|exact Hpos].
  assert (Hcancel : (top - 0) / inject_Z interval * inject_Z interval == top).
  { field. lra. }
  rewrite Hcancel in Hix. lra.
Qed.

Lemma y_limit_contains_the_rows_witness :
  column_max_float (map ns_day [gromacs_row; namd_row]) = ret (98 # 1)
  /\ 9 <= 98 # 1
  /\ exists interval ticks top,
      update_yticks [gromacs_row; namd_row] = ret (interval, ticks, top)
      /\ 98 # 1 < top
      /\ (forall r, In r [gromacs_row; namd_row] -> ns_day r <= 98 # 1)
      /\ (forall t, In t ticks -> t < top).
Proof.
  split; [reflexivity|]. split; [vm_compute; discriminate|].
  exact (y_limit_contains_the_rows [gromacs_row; namd_row] (98 # 1) eq_refl
                                   ltac:(vm_compute; discriminate)).
Defined.

(** * The notes and the hosts of a selection that succeeds *)

Local Open Scope Z_scope.
Local Open Scope list_scope.

Lemma bind_value {A B} (c : run A) (k : A -> run B) a :
  outcome c = inr a -> bind c k = (notes c ++ notes (k a), outcome (k a)).
Proof.
  destruct c as [l [e|a']]; unfold outcome, notes; cbn [fst snd];
    [discriminate|].
  intros H. injection H as ->. unfold bind. destruct (k a). reflexivity.
Qed.

Lemma select_processing_units_notes df want_gpu want_cpu df1 :
  outcome (select_processing_units df want_gpu want_cpu) = inr df1 ->
  notes (select_processing_units df want_gpu want_cpu)
  = [unit_note want_gpu want_cpu].
Proof.
  unfold select_processing_units, unit_note.
  destruct want_gpu, want_cpu; cbn [negb andb].
  - destruct df; [discriminate | reflexivity].
  - destruct (rows_on_gpu df); [discriminate | reflexivity].
  - destruct (rows_on_cpu df); [discriminate | reflexivity].
  - discriminate.
Qed.

Lemma select_hosts_notes df host_name df2 :
  outcome (select_hosts df host_name) = inr df2 ->
  notes (select_hosts df host_name) = [host_note host_name df].
Proof.
  unfold select_hosts, host_note.
  destruct (negb (_ =? _)%nat); [discriminate|].
  destruct host_name; reflexivity.
Qed.

Lemma check_modules_notes df module_name :
  outcome (check_modules df module_name) = inr tt ->
  notes (check_modules df module_name) = map module_note module_name.
Proof.
  induction module_name as [|m rest IH]; [reflexivity|].
  cbn [check_modules map]. unfold module_note at 1.
  destruct (isin engines m) eqn:He.
  - rewrite (bind_value (console_info (PlottingAllModulesOfEngine m))
                        (fun _ => check_modules df rest) tt eq_refl).
    intros H. unfold outcome in H at 1. cbn [snd] in H.
    unfold notes at 1. cbn [fst]. rewrite (IH H). reflexivity.
  - destruct (isin (map module df) m) eqn:Hm; cbn [negb].
    + rewrite (bind_value (console_info (PlottingModule m))
                          (fun _ => check_modules df rest) tt eq_refl).
      intros H. unfold outcome in H at 1. cbn [snd] in H.
      unfold notes at 1. cbn [fst]. rewrite (IH H). reflexivity.
    + discriminate.
Qed.

Lemma select_modules_notes str_contains df module_name df3 :
  outcome (select_modules str_contains df module_name) = inr df3 ->
  notes (select_modules str_contains df module_name)
  = module_notes module_name.
Proof.
  unfold select_modules.
  destruct (check_modules df module_name) as [l [e|[]]] eqn:Hc;
    [discriminate|].
  assert (Hl : l = map module_note module_name).
  { pose proof (check_modules_notes df module_name) as Hn.
    rewrite Hc in Hn. apply Hn. reflexivity. }
  subst l.
  destruct module_name as [|m rest].
  - destruct df; [discriminate | reflexivity].
  - cbn [List.length Nat.eqb negb module_notes].
    destruct (filter _ df); [discriminate|].
    intros _. unfold bind, ret, notes. cbn.
    rewrite !app_nil_r. reflexivity.
Qed.

(** X25: a selection that succeeds writes one note per decision, in this
    order: the processing units plotted, the hosts plotted (all, or the
    sorted names found), and the modules plotted (all, or one note per
    requested name, telling engine names from modules). *)
Theorem notes_of_a_selection :
  forall str_contains df host_name module_name want_gpu want_cpu rows,
    outcome (filter_dataframe_for_plotting str_contains df host_name
                                           module_name want_gpu want_cpu)
    = inr rows ->
    notes (filter_dataframe_for_plotting str_contains df host_name
                                         module_name want_gpu want_cpu)
    = unit_note want_gpu want_cpu
      :: host_note host_name (filter (unit_wanted want_gpu want_cpu) df)
      :: module_notes module_name.
Proof.
  intros sc df host_name module_name want_gpu want_cpu rows H.
  rewrite filter_outcome in H.
  destruct (outcome (select_processing_units df want_gpu want_cpu))
    as [e|df1] eqn:H1; [discriminate|].
  destruct (outcome (select_hosts df1 host_name)) as [e|df2] eqn:H2;
    [discriminate|].
  unfold filter_dataframe_for_plotting.
  rewrite (bind_value _ _ df1 H1).
  rewrite (bind_value _ _ df2 H2).
  unfold notes at 1. cbn [fst].
  rewrite (select_processing_units_notes _ _ _ _ H1).
  rewrite (select_hosts_notes _ _ _ H2).
  rewrite (select_modules_notes _ _ _ _ H).
  rewrite (select_processing_units_kept _ _ _ _ H1).
  reflexivity.
Qed.

Lemma notes_of_a_selection_witness :
  outcome (filter_dataframe_for_plotting
             re_search [gromacs_row; namd_row; gpu_row]
             ["draco"]%string ["gromacs"; "namd/2.12"]%string true true)
  = inr [gromacs_row; namd_row]
  /\ notes (filter_dataframe_for_plotting
              re_search [gromacs_row; namd_row; gpu_row]
              ["draco"]%string ["gromacs"; "namd/2.12"]%string true true)
     = [PlottingGpuAndCpu; PlottingHosts ["draco"%string];
        PlottingAllModulesOfEngine "gromacs"; PlottingModule "namd/2.12"].
Proof.
  split; [reflexivity|].
  exact (notes_of_a_selection
           re_search [gromacs_row; namd_row; gpu_row]
           ["draco"]%string ["gromacs"; "namd/2.12"]%string true true
           [gromacs_row; namd_row] eq_refl).
Defined.

(** X26: no requested host is dropped in silence: when a selection with
    hosts and without modules succeeds, every requested host has a row among
    those returned, and no host was named twice. *)
Theorem every_requested_host_is_selected :
  forall str_contains df host_name want_gpu want_cpu rows,
    outcome (filter_dataframe_for_plotting str_contains df host_name []
                                           want_gpu want_cpu)
    = inr rows ->
    NoDup host_name
    /\ (forall h, In h host_name -> exists r, In r rows /\ host r = h).
Proof.
  intros sc df host_name want_gpu want_cpu rows H.
  rewrite hosts_step_outcome in H.
  destruct (outcome (select_processing_units df want_gpu want_cpu))
    as [e|df1]; [discriminate|].
  destruct host_name as [|h0 hs]; [split; [constructor | contradiction]|].
  set (hn := h0 :: hs) in *.
  rewrite select_hosts_outcome in H. cbn zeta in H.
  set (matched := filter (fun r => isin hn (host r)) df1) in *.
  set (found := np_unique (map host matched)) in *.
  destruct (Nat.ltb_spec (List.length found) (List.length hn)) as [|Hge];
    [discriminate|].
  injection H as <-.
  assert (Hincl : incl found hn).
  { intros h Hh. unfold found in Hh. apply -> In_np_unique in Hh.
    apply in_map_iff in Hh. destruct Hh as [r [<- Hr]].
    apply filter_In in Hr. apply isin_In, Hr. }
  pose proof (np_unique_NoDup (map host matched)) as Hnd. fold found in Hnd.
  assert (Hback : incl hn found)
    by (apply NoDup_length_incl; assumption).
  split.
  - exact (NoDup_incl_NoDup Hnd Hge Hincl).
  - intros h Hh. apply Hback in Hh. unfold found in Hh.
    apply -> In_np_unique in Hh. apply in_map_iff in Hh.
    destruct Hh as [r [Hr Hin]]. exists r. split; assumption.
Qed.

Lemma every_requested_host_is_selected_witness :
  outcome (filter_dataframe_for_plotting
             re_search [gromacs_row; namd_row; gpu_row]
             ["hydra"; "draco"]%string [] true true)
  = inr [gromacs_row; namd_row; gpu_row]
  /\ NoDup ["hydra"; "draco"]%string.
Proof.
  split; [reflexivity|].
  exact (proj1 (every_requested_host_is_selected
                  re_search [gromacs_row; namd_row; gpu_row]
                  ["hydra"; "draco"]%string true true
                  [gromacs_row; namd_row; gpu_row] eq_refl)).
Defined.
